(** * Payment reconciliation core of [services/paymentService.js]

    A shallow embedding of the [PaymentService] class: the webhook
    reconciler [handleFastlipaWebhook], the shared status update
    [updatePaymentStatus], the audit writer [logWebhookData] and the
    payment processor [processPayment], over an explicit model of the
    two tables of [migrations/sqls/20251015104711-create-payments-table-up.sql].

    Conventions.
    - JavaScript values are the type [value]; [undefined] is the [None] of
      [option value].
    - JavaScript strings are [string]s.  The only string operations of the
      source ([startsWith('255')], [substring(3)], [toLowerCase()] followed
      by comparison with lower-case ASCII literals, template literals) act
      on ASCII code units, so the byte view and the UTF-16 view agree.
    - Timestamps are milliseconds in [Z].
    - An [async] method is a computation in the monad [M]: it threads the
      [World] and may throw a JavaScript exception. *)

From Stdlib Require Import String Ascii List ZArith Bool Lia.
From Stdlib Require Import QArith_base Qround.
From Stdlib Require Import Permutation.
Import ListNotations.
Local Close Scope Q_scope.
Local Open Scope string_scope.
Local Open Scope Z_scope.

Set Warnings "-register-all".

(* ===================================================================== *)
(** ** JavaScript values *)
(* ===================================================================== *)

(** What [express.json()] hands to the service, plus [Date] objects, which
    the service itself puts into the blobs it stores. *)
Inductive value : Type :=
| VNull
| VBool (b : bool)
| VNum (q : Q)
| VStr (s : string)
| VDate (t : Z)
| VArr (xs : list value)
| VObj (kvs : list (string * value)).

(** ToBoolean. *)
Definition truthy (v : value) : bool :=
  match v with
  | VNull => false
  | VBool b => b
  | VNum q => negb (Qnum q =? 0)
  | VStr s => negb (s =? EmptyString)%string
  | VDate _ => true
  | VArr _ => true
  | VObj _ => true
  end.

(** ToBoolean of a possibly [undefined] value. *)
Definition truthy_opt (o : option value) : bool :=
  match o with
  | Some v => truthy v
  | None => false
  end.

Fixpoint assoc (k : string) (kvs : list (string * value)) : option value :=
  match kvs with
  | [] => None
  | (k', v) :: rest => if (k =? k')%string then Some v else assoc k rest
  end.

(** [o.k] for a non-null [o].  None of the keys the service reads
    ([tranid], [transaction_id], [id], [status], [state], [amount],
    [number], [phone_number], [payment_id]) is a property of a primitive,
    an array or a [Date], so only plain objects answer. *)
Definition member (k : string) (o : value) : option value :=
  match o with
  | VObj kvs => assoc k kvs
  | _ => None
  end.

(** [x] where JavaScript writes a variable initialised to [null]. *)
Definition nullable (o : option value) : value :=
  match o with
  | Some v => v
  | None => VNull
  end.

(* ===================================================================== *)
(** ** Exceptions and results *)
(* ===================================================================== *)

Inductive exn : Type :=
| Error (msg : string)
| TypeError (msg : string).

(** [error.message] *)
Definition message (e : exn) : string :=
  match e with
  | Error m => m
  | TypeError m => m
  end.

Inductive Result (A : Type) : Type :=
| Ok (a : A)
| Throw (e : exn).

Arguments Ok {A} a.
Arguments Throw {A} e.

Definition is_throw {A : Type} (r : Result A) : bool :=
  match r with
  | Ok _ => false
  | Throw _ => true
  end.

(* ===================================================================== *)
(** ** Strings *)
(* ===================================================================== *)

Definition lower_ascii (c : ascii) : ascii :=
  let n := nat_of_ascii c in
  if (Nat.leb 65 n && Nat.leb n 90)%bool then ascii_of_nat (n + 32) else c.

(** [s.toLowerCase()].  Outside ASCII the only code points that JavaScript
    lower-cases into ASCII letters yield [k] (U+212A) or [i] followed by
    U+0307 (U+0130); no word of the status vocabulary below can be
    produced that way, so the status switch cannot tell the difference. *)
Fixpoint toLowerCase (s : string) : string :=
  match s with
  | EmptyString => EmptyString
  | String c rest => String (lower_ascii c) (toLowerCase rest)
  end.

(** [s.startsWith(p)] *)
Definition startsWith (p s : string) : bool := String.prefix p s.

(** [s.substring(n)] *)
Fixpoint substring_from (n : nat) (s : string) : string :=
  match n, s with
  | O, _ => s
  | S n', EmptyString => EmptyString
  | S n', String _ rest => substring_from n' rest
  end.

(* ===================================================================== *)
(** ** Webhook field extraction (paymentService.js, lines 195-226) *)
(* ===================================================================== *)

Record Extracted : Type := mkExtracted {
  ex_transactionId : option value;  (* [null] is [None] *)
  ex_status : string;
  ex_amount : option value;         (* raw; [parseFloat] of it is only printed *)
  ex_phoneNumber : option value     (* [null] is [None] *)
}.

(** [v.toLowerCase()] for a truthy [v] read from [webhookData.<key>]. *)
Definition callToLowerCase (key : string) (v : option value) : Result string :=
  match v with
  | Some (VStr s) => Ok (toLowerCase s)
  | _ => Throw (TypeError ("webhookData." ++ key ++ ".toLowerCase is not a function"))
  end.

Definition extractTransactionId (webhookData : value) : option value :=
  if truthy_opt (member "tranid" webhookData) then member "tranid" webhookData
  else if truthy_opt (member "transaction_id" webhookData) then member "transaction_id" webhookData
  else if truthy_opt (member "id" webhookData) then member "id" webhookData
  else None.

Definition extractStatus (webhookData : value) : Result string :=
  if truthy_opt (member "status" webhookData) then
    callToLowerCase "status" (member "status" webhookData)
  else if truthy_opt (member "state" webhookData) then
    callToLowerCase "state" (member "state" webhookData)
  else Ok "unknown".

Definition extractAmount (webhookData : value) : option value :=
  if truthy_opt (member "amount" webhookData) then member "amount" webhookData
  else None.

Definition extractPhoneNumber (webhookData : value) : option value :=
  if truthy_opt (member "number" webhookData) then member "number" webhookData
  else if truthy_opt (member "phone_number" webhookData) then member "phone_number" webhookData
  else None.

(** Reading a property of [null] throws before anything is extracted. *)
Definition extract (webhookData : value) : Result Extracted :=
  match webhookData with
  | VNull => Throw (TypeError "Cannot read properties of null (reading 'tranid')")
  | _ =>
    match extractStatus webhookData with
    | Throw e => Throw e
    | Ok status =>
      Ok {| ex_transactionId := extractTransactionId webhookData;
            ex_status := status;
            ex_amount := extractAmount webhookData;
            ex_phoneNumber := extractPhoneNumber webhookData |}
    end
  end.

(* ===================================================================== *)
(** ** Status normalisation (paymentService.js, lines 236-259) *)
(* ===================================================================== *)

(** The [switch (status)] of the reconciler. *)
Definition internalStatusOf (status : string) : string :=
  if ((status =? "success") || (status =? "successful")
      || (status =? "completed") || (status =? "paid"))%string%bool
  then "completed"
  else if ((status =? "failed") || (status =? "error")
           || (status =? "cancelled") || (status =? "canceled"))%string%bool
  then "failed"
  else if ((status =? "pending") || (status =? "processing")
           || (status =? "initiated"))%string%bool
  then "processing"
  else "pending".

(* ===================================================================== *)
(** ** The two tables *)
(* ===================================================================== *)

(** A row of [payments]. *)
Record Payment : Type := mkPayment {
  id : Z;
  payment_link_id : string;
  amount : Q;
  currency : option string;
  phone_number : option string;
  customer_name : option string;
  customer_email : option string;
  description : option string;
  status : string;
  payment_reference : option string;
  external_payment_id : option string;
  payment_method : option string;
  fastlipa_response : option value;  (* the blob whose JSON text is stored *)
  created_at : Z;
  updated_at : Z;
  paid_at : option Z
}.

(** A row of [webhook_logs], with the columns the INSERT of
    [logWebhookData] names. *)
Record WebhookLog : Type := mkWebhookLog {
  log_payment_id : option Z;
  log_webhook_data : value;          (* the value whose JSON text is stored *)
  log_status : string;
  log_error_message : option string;
  log_created_at : Z
}.

(** The statements the service sends through [pool.query]. *)
Inductive Statement : Type :=
| SelectByExternalId (transactionId : value)
| SelectRecentByPhone (phoneNumber : value)
| UpdatePayments (updateData : list (string * value)) (paymentLinkId : string)
| InsertWebhookLog (row : WebhookLog).

(** What [axios.post] sends to [/api/create-transaction]. *)
Record GatewayRequest : Type := mkGatewayRequest {
  req_number : string;
  req_amount : Z;
  req_name : string
}.

(** The argument of [processPayment]. *)
Record PaymentData : Type := mkPaymentData {
  pd_paymentLinkId : string;
  pd_amount : Q;
  pd_currency : option string;
  pd_phoneNumber : string;
  pd_description : option string;
  pd_customerName : string
}.

(** The object [processPayment] returns. *)
Record ProcessResult : Type := mkProcessResult {
  pr_success : bool;
  pr_paymentId : option value;
  pr_status : value;
  pr_instructions : string
}.

(** The service's surroundings.  [rejects] is every reason the server can
    have to refuse a statement (outage, constraint, cast): the message of
    the error [pool.query] then throws.  [gateway] is the outcome of the
    HTTP call: response data, or the error axios throws.  One call of a
    service method is short with respect to [clock]. *)
Record World : Type := mkWorld {
  payments : list Payment;
  webhook_logs : list WebhookLog;
  clock : Z;
  rejects : Statement -> option string;
  gateway : GatewayRequest -> Result value;
  sent : list GatewayRequest
}.

Definition set_payments (ps : list Payment) (w : World) : World :=
  mkWorld ps (webhook_logs w) (clock w) (rejects w) (gateway w) (sent w).

Definition set_webhook_logs (ls : list WebhookLog) (w : World) : World :=
  mkWorld (payments w) ls (clock w) (rejects w) (gateway w) (sent w).

Definition set_sent (rs : list GatewayRequest) (w : World) : World :=
  mkWorld (payments w) (webhook_logs w) (clock w) (rejects w) (gateway w) rs.

(** The store refuses nothing. *)
Definition healthy (w : World) : Prop := forall stmt, rejects w stmt = None.

(** Column setters. *)
Definition with_status (s : string) (p : Payment) : Payment :=
  mkPayment (id p) (payment_link_id p) (amount p) (currency p) (phone_number p)
    (customer_name p) (customer_email p) (description p) s
    (payment_reference p) (external_payment_id p) (payment_method p)
    (fastlipa_response p) (created_at p) (updated_at p) (paid_at p).

Definition with_external_payment_id (x : option string) (p : Payment) : Payment :=
  mkPayment (id p) (payment_link_id p) (amount p) (currency p) (phone_number p)
    (customer_name p) (customer_email p) (description p) (status p)
    (payment_reference p) x (payment_method p)
    (fastlipa_response p) (created_at p) (updated_at p) (paid_at p).

Definition with_fastlipa_response (x : option value) (p : Payment) : Payment :=
  mkPayment (id p) (payment_link_id p) (amount p) (currency p) (phone_number p)
    (customer_name p) (customer_email p) (description p) (status p)
    (payment_reference p) (external_payment_id p) (payment_method p)
    x (created_at p) (updated_at p) (paid_at p).

Definition with_updated_at (t : Z) (p : Payment) : Payment :=
  mkPayment (id p) (payment_link_id p) (amount p) (currency p) (phone_number p)
    (customer_name p) (customer_email p) (description p) (status p)
    (payment_reference p) (external_payment_id p) (payment_method p)
    (fastlipa_response p) (created_at p) t (paid_at p).

Definition with_paid_at (x : option Z) (p : Payment) : Payment :=
  mkPayment (id p) (payment_link_id p) (amount p) (currency p) (phone_number p)
    (customer_name p) (customer_email p) (description p) (status p)
    (payment_reference p) (external_payment_id p) (payment_method p)
    (fastlipa_response p) (created_at p) (updated_at p) x.

Definition opt_string_eqb (o : option string) (s : string) : bool :=
  match o with
  | Some x => (x =? s)%string
  | None => false
  end.

(** [ORDER BY created_at DESC LIMIT 1]; among equally new rows the one
    stored first. *)
Fixpoint newest (ps : list Payment) : option Payment :=
  match ps with
  | [] => None
  | p :: rest =>
    match newest rest with
    | Some q => if created_at p <? created_at q then Some q else Some p
    | None => Some p
    end
  end.

Definition option_to_list {A : Type} (o : option A) : list A :=
  match o with
  | Some a => [a]
  | None => []
  end.

(** [INTERVAL '1 hour'] *)
Definition one_hour : Z := 3600000.

(* ===================================================================== *)
(** ** The monad of service methods *)
(* ===================================================================== *)

Definition M (A : Type) : Type := World -> Result A * World.

Definition ret {A : Type} (a : A) : M A := fun w => (Ok a, w).

Definition throw {A : Type} (e : exn) : M A := fun w => (Throw e, w).

Definition bind {A B : Type} (m : M A) (k : A -> M B) : M B :=
  fun w =>
    match m w with
    | (Ok a, w') => k a w'
    | (Throw e, w') => (Throw e, w')
    end.

(** [try { m } catch (error) { handler }]: the effects of [m] up to the
    throw stay. *)
Definition try_catch {A : Type} (m : M A) (handler : exn -> M A) : M A :=
  fun w =>
    match m w with
    | (Ok a, w') => (Ok a, w')
    | (Throw e, w') => handler e w'
    end.

Definition lift {A : Type} (r : Result A) : M A := fun w => (r, w).

(** [new Date()], and [NOW()] on the server. *)
Definition now : M Z := fun w => (Ok (clock w), w).

Declare Scope js_scope.
Delimit Scope js_scope with js.
Notation "x <- m ;; k" := (bind m (fun x => k))
  (at level 61, m at next level, right associativity) : js_scope.
Notation "m ;;; k" := (bind m (fun _ => k))
  (at level 61, right associativity) : js_scope.
Local Open Scope js_scope.

(* ===================================================================== *)
(** ** A sample store *)
(* ===================================================================== *)

(** A driver rendering, enough for the examples. *)
Definition sample_render (v : value) : string :=
  match v with
  | VBool true => "true"
  | VBool false => "false"
  | _ => EmptyString
  end.

(** A payment that the processor has moved to [processing]. *)
Definition sample_payment : Payment :=
  {| id := 1;
     payment_link_id := "3f2b6c1e-8d4a-4c57-9a10-5b7e2f6d9c01";
     amount := Qmake 1000 1;
     currency := Some "TZS";
     phone_number := Some "0712345678";
     customer_name := Some "Asha";
     customer_email := None;
     description := Some "Test";
     status := "processing";
     payment_reference := None;
     external_payment_id := None;
     payment_method := None;
     fastlipa_response := Some (VObj [("tranid", VStr "pay_test123"); ("status", VStr "pending")]);
     created_at := 1760000000000;
     updated_at := 1760000060000;
     paid_at := None |}.

Definition unreachable_gateway (_ : GatewayRequest) : Result value :=
  Throw (Error "Network Error").

(** Ten minutes after the sample payment was created; the store answers. *)
Definition sample_world : World :=
  {| payments := [sample_payment];
     webhook_logs := [];
     clock := 1760000600000;
     rejects := fun _ => None;
     gateway := unreachable_gateway;
     sent := [] |}.

(** The same store during an outage: every statement is refused. *)
Definition outage_world : World :=
  {| payments := [sample_payment];
     webhook_logs := [];
     clock := 1760000600000;
     rejects := fun _ => Some "Connection terminated unexpectedly";
     gateway := unreachable_gateway;
     sent := [] |}.

(** The same payment once completed, two hours after its creation. *)
Definition completed_world : World :=
  {| payments := [with_external_payment_id (Some "pay_test123")
                    (with_status "completed" sample_payment)];
     webhook_logs := [];
     clock := 1760007200000;
     rejects := fun _ => None;
     gateway := unreachable_gateway;
     sent := [] |}.

Definition sample_webhook : value :=
  VObj [("tranid", VStr "pay_test123"); ("status", VStr "SUCCESS");
        ("amount", VNum (Qmake 1000 1)); ("number", VStr "0712345678")].

Definition sample_extracted : Extracted :=
  {| ex_transactionId := Some (VStr "pay_test123");
     ex_status := "success";
     ex_amount := Some (VNum (Qmake 1000 1));
     ex_phoneNumber := Some (VStr "0712345678") |}.

(** A notification nobody is waiting for. *)
Definition stray_webhook : value :=
  VObj [("transaction_id", VStr "pay_other999"); ("state", VStr "Failed");
        ("phone_number", VStr "0799999999")].

Definition stray_extracted : Extracted :=
  {| ex_transactionId := Some (VStr "pay_other999");
     ex_status := "failed";
     ex_amount := None;
     ex_phoneNumber := Some (VStr "0799999999") |}.

(** A notification whose first-choice keys are present but empty. *)
Definition fallback_webhook : value :=
  VObj [("tranid", VStr EmptyString); ("transaction_id", VStr "T");
        ("status", VStr EmptyString); ("state", VStr "PAID");
        ("number", VStr EmptyString); ("phone_number", VStr "0712345678")].

Definition fallback_extracted : Extracted :=
  {| ex_transactionId := Some (VStr "T");
     ex_status := "paid";
     ex_amount := None;
     ex_phoneNumber := Some (VStr "0712345678") |}.

Definition sample_paymentData : PaymentData :=
  {| pd_paymentLinkId := "3f2b6c1e-8d4a-4c57-9a10-5b7e2f6d9c01";
     pd_amount := Qmake 1000 1;
     pd_currency := Some "TZS";
     pd_phoneNumber := "255712345678";
     pd_description := Some "Test";
     pd_customerName := "Asha" |}.

Section Service.

(** The text the database driver sends for a query parameter that is not
    a string (numbers, booleans, arrays, objects); strings go unchanged. *)
Variable render : value -> string.

Definition pgText (v : value) : string :=
  match v with
  | VStr s => s
  | _ => render v
  end.

(* ===================================================================== *)
(** ** [pool.query] *)
(* ===================================================================== *)

(** [SET field = $i] for the fields [updatePaymentStatus] can name. *)
Definition set_column (field : string) (v : value) (p : Payment) : Payment :=
  if (field =? "status")%string then with_status (pgText v) p
  else if (field =? "fastlipa_response")%string then
    with_fastlipa_response (match v with VNull => None | _ => Some v end) p
  else if (field =? "updated_at")%string then
    with_updated_at (match v with VDate t => t | _ => updated_at p end) p
  else if (field =? "paid_at")%string then
    with_paid_at (match v with VDate t => Some t | _ => None end) p
  else if (field =? "external_payment_id")%string then
    with_external_payment_id (match v with VNull => None | _ => Some (pgText v) end) p
  else p.

Definition apply_update (updateData : list (string * value)) (p : Payment) : Payment :=
  fold_left (fun row fv => set_column (fst fv) (snd fv) row) updateData p.

(** The trigger [update_payments_updated_at], BEFORE UPDATE on each row. *)
Definition update_updated_at_column (t : Z) (p : Payment) : Payment :=
  with_updated_at t p.

Definition update_row (t : Z) (updateData : list (string * value))
    (paymentLinkId : string) (p : Payment) : Payment :=
  if (payment_link_id p =? paymentLinkId)%string
  then update_updated_at_column t (apply_update updateData p)
  else p.

(** [SELECT * FROM payments WHERE external_payment_id = $1] *)
Definition select_by_external_id (transactionId : value) (ps : list Payment) : list Payment :=
  filter (fun p => opt_string_eqb (external_payment_id p) (pgText transactionId)) ps.

(** [SELECT * FROM payments WHERE phone_number = $1
     AND created_at > NOW() - INTERVAL '1 hour'
     ORDER BY created_at DESC LIMIT 1] *)
Definition select_recent_by_phone (t : Z) (phoneNumber : value) (ps : list Payment) : list Payment :=
  option_to_list
    (newest (filter (fun p => opt_string_eqb (phone_number p) (pgText phoneNumber)
                              && (t - one_hour <? created_at p)) ps)).

(** What an accepted statement does and the rows it returns. *)
Definition execute (stmt : Statement) (w : World) : list Payment * World :=
  match stmt with
  | SelectByExternalId transactionId =>
      (select_by_external_id transactionId (payments w), w)
  | SelectRecentByPhone phoneNumber =>
      (select_recent_by_phone (clock w) phoneNumber (payments w), w)
  | UpdatePayments updateData paymentLinkId =>
      let ps := map (update_row (clock w) updateData paymentLinkId) (payments w) in
      (filter (fun p => (payment_link_id p =? paymentLinkId)%string) ps,
       set_payments ps w)
  | InsertWebhookLog row =>
      ([], set_webhook_logs (webhook_logs w ++ [row]) w)
  end.

(** [await this.pool.query(query, values)], giving [rows]. *)
Definition pool_query (stmt : Statement) : M (list Payment) :=
  fun w =>
    match rejects w stmt with
    | Some msg => (Throw (Error msg), w)
    | None => let (rows, w') := execute stmt w in (Ok rows, w')
    end.

(** [await axios.post(url, paymentPayload, config)], giving [response.data]. *)
Definition axios_post (paymentPayload : GatewayRequest) : M value :=
  fun w => (gateway w paymentPayload, set_sent (sent w ++ [paymentPayload]) w).

(* ===================================================================== *)
(** ** [updatePaymentStatus] (paymentService.js, lines 142-180) *)
(* ===================================================================== *)

(** The object [updateData], keys in insertion order. *)
Definition buildUpdateData (t : Z) (status : string) (fastlipaResponse : value)
    : list (string * value) :=
  [("status", VStr status); ("fastlipa_response", fastlipaResponse); ("updated_at", VDate t)]
  ++ (if (status =? "completed")%string then [("paid_at", VDate t)] else [])
  ++ (if truthy fastlipaResponse && truthy_opt (member "payment_id" fastlipaResponse)
      then [("external_payment_id", nullable (member "payment_id" fastlipaResponse))]
      else []).

(** Returns [rows[0]]: [None] is [undefined]. *)
Definition updatePaymentStatus (paymentLinkId status : string) (fastlipaResponse : value)
    : M (option Payment) :=
  try_catch
    (t <- now ;;
     rows <- pool_query (UpdatePayments (buildUpdateData t status fastlipaResponse) paymentLinkId) ;;
     ret (hd_error rows))
    (fun error => throw (Error ("Failed to update payment status: " ++ message error))).

(* ===================================================================== *)
(** ** [logWebhookData] (paymentService.js, lines 383-402) *)
(* ===================================================================== *)

Definition logWebhookData (webhookData : value) (status : string)
    (paymentId : option Z) (error : option string) : M unit :=
  try_catch
    (t <- now ;;
     pool_query (InsertWebhookLog (mkWebhookLog paymentId webhookData status error t)) ;;;
     ret tt)
    (fun _ => ret tt).

(* ===================================================================== *)
(** ** [handleFastlipaWebhook] (paymentService.js, lines 187-337) *)
(* ===================================================================== *)

Definition noMatchResult (e : Extracted) : value :=
  VObj [("success", VBool false);
        ("message", VStr "No matching payment found");
        ("receivedData",
         VObj [("transactionId", nullable (ex_transactionId e));
               ("phoneNumber", nullable (ex_phoneNumber e));
               ("status", VStr (ex_status e))])].

Definition processedResult (payment : Payment) (internalStatus : string) (e : Extracted) : value :=
  VObj [("success", VBool true);
        ("message", VStr "Webhook processed successfully");
        ("paymentId", VNum (inject_Z (id payment)));
        ("previousStatus", VStr (status payment));
        ("newStatus", VStr internalStatus);
        ("transactionId", nullable (ex_transactionId e))].

(** The blob the reconciler hands to [updatePaymentStatus]. *)
Definition webhookBlob (webhookData : value) (e : Extracted) (t : Z) : value :=
  VObj [("webhookData", webhookData);
        ("externalPaymentId", nullable (ex_transactionId e));
        ("fastlipaStatus", VStr (ex_status e));
        ("processedAt", VDate t)].

(** Lines 261-280: by external id first, then by phone number. *)
Definition findPayment (e : Extracted) : M (option Payment) :=
  payment <- match ex_transactionId e with
             | Some transactionId =>
                 paymentsByExtId <- pool_query (SelectByExternalId transactionId) ;;
                 ret (hd_error paymentsByExtId)
             | None => ret None
             end ;;
  match payment, ex_phoneNumber e with
  | None, Some phoneNumber =>
      paymentsByPhone <- pool_query (SelectRecentByPhone phoneNumber) ;;
      ret (hd_error paymentsByPhone)
  | _, _ => ret payment
  end.

(** The second argument [req] of the source is only printed, with the
    other [console.log] lines, and is left out. *)
Definition handleFastlipaWebhook (webhookData : value) : M value :=
  try_catch
    (e <- lift (extract webhookData) ;;
     let internalStatus := internalStatusOf (ex_status e) in
     found <- findPayment e ;;
     match found with
     | None =>
         logWebhookData webhookData "no_matching_payment" None None ;;;
         ret (noMatchResult e)
     | Some payment =>
         (if negb (status payment =? internalStatus)%string
          then t <- now ;;
               updatePaymentStatus (payment_link_id payment) internalStatus
                 (webhookBlob webhookData e t) ;;;
               ret tt
          else ret tt) ;;;
         logWebhookData webhookData "processed" (Some (id payment)) None ;;;
         ret (processedResult payment internalStatus e)
     end)
    (fun error =>
       logWebhookData webhookData "error" None (Some (message error)) ;;;
       throw error).

(* ===================================================================== *)
(** ** [processPayment] (paymentService.js, lines 84-137) *)
(* ===================================================================== *)

(** [Math.round(parseFloat(amount))] on the exact amount: the nearest
    integer, halves upwards. *)
Definition Math_round (q : Q) : Z := Qfloor (Qplus q (Qmake 1 2)).

(** Lines 88-90. *)
Definition localPhoneNumber (phoneNumber : string) : string :=
  if startsWith "255" phoneNumber then substring_from 3 phoneNumber else phoneNumber.

Definition paymentPayload (paymentData : PaymentData) : GatewayRequest :=
  {| req_number := localPhoneNumber (pd_phoneNumber paymentData);
     req_amount := Math_round (pd_amount paymentData);
     req_name := pd_customerName paymentData |}.

(** [response.data.k]: throws when [response.data] is [null]. *)
Definition readData (k : string) (data : value) : Result (option value) :=
  match data with
  | VNull => Throw (TypeError ("Cannot read properties of null (reading '" ++ k ++ "')"))
  | _ => Ok (member k data)
  end.

(** The [try] block (lines 85-123). *)
Definition processPayment_try (paymentData : PaymentData) : M ProcessResult :=
  data <- axios_post (paymentPayload paymentData) ;;
  updatePaymentStatus (pd_paymentLinkId paymentData) "processing" data ;;;
  tranid <- lift (readData "tranid" data) ;;
  paymentId <- (if truthy_opt tranid then ret tranid
                else lift (readData "transaction_id" data)) ;;
  st <- lift (readData "status" data) ;;
  ret {| pr_success := true;
         pr_paymentId := paymentId;
         pr_status := if truthy_opt st then nullable st else VStr "pending";
         pr_instructions :=
           "Payment initiated successfully. Use the transaction ID to check status." |}.

(** The [catch] block (lines 125-136). *)
Definition processPayment_catch (paymentData : PaymentData) (error : exn) : M ProcessResult :=
  updatePaymentStatus (pd_paymentLinkId paymentData) "failed"
    (VObj [("error", VStr (message error))]) ;;;
  throw (Error ("Payment processing failed: " ++ message error)).

Definition processPayment (paymentData : PaymentData) : M ProcessResult :=
  try_catch (processPayment_try paymentData) (processPayment_catch paymentData).

(* ===================================================================== *)
(** ** The other methods of the service *)
(* ===================================================================== *)

(** The statements of the methods below.  [UpdatePaymentsNoLink] is the
    UPDATE of [updatePaymentStatus] when its link parameter is [null] or
    [undefined]: the driver sends NULL and no row can be equal to it. *)
Inductive Query : Type :=
| SelectByLinkId (paymentLinkId : string)
| SelectStats
| UpdatePaymentsNoLink (updateData : list (string * value)).

(** The server's refusal of such a statement, as [rejects] is for the
    statements of the previous sections. *)
Variable refuses : Query -> option string.

(** [getPaymentByLinkId] (paymentService.js, lines 65-79):
    [SELECT * FROM payments WHERE payment_link_id = $1], then [rows[0]] or
    [null]. *)
Definition getPaymentByLinkId (paymentLinkId : string) : M (option Payment) :=
  try_catch
    (fun w =>
       match refuses (SelectByLinkId paymentLinkId) with
       | Some msg => (Throw (Error msg), w)
       | None =>
           (Ok (hd_error (filter (fun p => (payment_link_id p =? paymentLinkId)%string)
                                 (payments w))), w)
       end)
    (fun error => throw (Error ("Failed to fetch payment: " ++ message error))).

(** The row of aggregates of [getPaymentStats].  The driver hands the
    counts and the sum over as decimal text; they are kept as numbers. *)
Record PaymentStats : Type := mkPaymentStats {
  total_payments : Z;
  total_amount : option Q;          (* [None] is NULL *)
  completed_payments : Z;
  pending_payments : Z;
  failed_payments : Z
}.

(** [COUNT(CASE WHEN status = s THEN 1 END)] *)
Definition count_status (s : string) (ps : list Payment) : Z :=
  Z.of_nat (length (filter (fun p => (status p =? s)%string) ps)).

(** [SUM(CASE WHEN status = 'completed' THEN amount ELSE 0 END)] over at
    least one row. *)
Definition sum_completed (ps : list Payment) : Q :=
  fold_left (fun acc p =>
               Qplus acc (if (status p =? "completed")%string then amount p else Qmake 0 1))
            ps (Qmake 0 1).

Definition payment_stats (ps : list Payment) : PaymentStats :=
  {| total_payments := Z.of_nat (length ps);
     total_amount := match ps with [] => None | _ :: _ => Some (sum_completed ps) end;
     completed_payments := count_status "completed" ps;
     pending_payments := count_status "pending" ps;
     failed_payments := count_status "failed" ps |}.

(** [getPaymentStats] (paymentService.js, lines 433-452). *)
Definition getPaymentStats : M PaymentStats :=
  try_catch
    (fun w =>
       match refuses SelectStats with
       | Some msg => (Throw (Error msg), w)
       | None => (Ok (payment_stats (payments w)), w)
       end)
    (fun error => throw (Error ("Failed to fetch payment statistics: " ++ message error))).

(** [updatePaymentStatus] as [handlePaymentCallback] calls it, with a link
    parameter that is whatever the callback carried. *)
Definition updatePaymentStatusOf (paymentReference : option value) (status : string)
    (fastlipaResponse : value) : M (option Payment) :=
  match paymentReference with
  | Some VNull | None =>
      try_catch
        (t <- now ;;
         fun w =>
           match refuses (UpdatePaymentsNoLink (buildUpdateData t status fastlipaResponse)) with
           | Some msg => (Throw (Error msg), w)
           | None => (Ok None, w)
           end)
        (fun error => throw (Error ("Failed to update payment status: " ++ message error)))
  | Some v => updatePaymentStatus (pgText v) status fastlipaResponse
  end.

(** The [switch (status?.toLowerCase())] of [handlePaymentCallback]; the
    argument is [None] for [undefined]. *)
Definition callbackStatusOf (lowered : option string) : string :=
  match lowered with
  | None => "processing"
  | Some s =>
      if ((s =? "success") || (s =? "completed"))%string%bool then "completed"
      else if (s =? "failed")%string then "failed"
      else if (s =? "cancelled")%string then "cancelled"
      else "processing"
  end.

(** [status?.toLowerCase()]: [undefined] for a missing or [null] status,
    a TypeError for anything that is not a string. *)
Definition optionalToLowerCase (status : option value) : Result (option string) :=
  match status with
  | None => Ok None
  | Some VNull => Ok None
  | Some (VStr s) => Ok (Some (toLowerCase s))
  | Some _ => Throw (TypeError "status?.toLowerCase is not a function")
  end.

(** The blob of the callback: a key whose value is [undefined] has no
    JSON text. *)
Definition callbackBlob (callbackData : value) (paymentId : option value) : value :=
  VObj (("callbackData", callbackData)
        :: match paymentId with
           | Some v => [("externalPaymentId", v)]
           | None => []
           end).

(** [handlePaymentCallback] (paymentService.js, lines 342-378); the
    argument is [None] when the request had no body. *)
Definition handlePaymentCallback (callbackData : option value) : M value :=
  try_catch
    (match callbackData with
     | None => throw (TypeError "Cannot destructure property 'paymentReference' of 'callbackData' as it is undefined.")
     | Some VNull => throw (TypeError "Cannot destructure property 'paymentReference' of 'callbackData' as it is null.")
     | Some data =>
         lowered <- lift (optionalToLowerCase (member "status" data)) ;;
         let newStatus := callbackStatusOf lowered in
         updatePaymentStatusOf (member "paymentReference" data) newStatus
           (callbackBlob data (member "paymentId" data)) ;;;
         ret (VObj [("success", VBool true)])
     end)
    (fun error => throw error).

(* ===================================================================== *)
(** ** The routes that call the service (index.js) *)
(* ===================================================================== *)

(** [res.status(code).json(body)] *)
Record Response : Type := mkResponse {
  res_status : Z;
  res_body : value
}.

(** [Object.keys(v).length] for a truthy [v]. *)
Definition Object_keys_length (v : value) : nat :=
  match v with
  | VObj kvs => length kvs
  | VArr xs => length xs
  | VStr s => String.length s
  | _ => O
  end.

(** [POST /api/payments/webhook]; [None] is a request without a parsed
    body. *)
Definition webhookRoute (body : option value) : M Response :=
  try_catch
    (match body with
     | None =>
         ret (mkResponse 400
                (VObj [("success", VBool false); ("error", VStr "Empty webhook data");
                       ("message", VStr "No data received in webhook")]))
     | Some webhookData =>
         if (negb (truthy webhookData) || Nat.eqb (Object_keys_length webhookData) 0)%bool
         then ret (mkResponse 400
                     (VObj [("success", VBool false); ("error", VStr "Empty webhook data");
                            ("message", VStr "No data received in webhook")]))
         else
           result <- handleFastlipaWebhook webhookData ;;
           ret (mkResponse (if truthy_opt (member "success" result) then 200 else 400) result)
     end)
    (fun error =>
       t <- now ;;
       ret (mkResponse 500
              (VObj [("success", VBool false); ("error", VStr "Webhook processing failed");
                     ("details", VStr (message error)); ("timestamp", VDate t)]))).

(** [POST /api/payments/callback] *)
Definition callbackRoute (body : option value) : M Response :=
  try_catch
    (result <- handlePaymentCallback body ;;
     ret (mkResponse 200 result))
    (fun error =>
       ret (mkResponse 500
              (VObj [("error", VStr "Callback processing failed");
                     ("details", VStr (message error))]))).

(** The body of [POST /api/payments/process] once
    [validatePaymentProcessing] has let it through: three strings. *)
Record ProcessBody : Type := mkProcessBody {
  body_paymentLinkId : string;
  body_phoneNumber : string;
  body_customerName : string
}.

(** The pattern [/^0[0-9]{9}$/] of the [phoneNumber] rule of
    [validatePaymentProcessing]. *)
Definition is_digit (c : ascii) : bool :=
  let n := nat_of_ascii c in (Nat.leb 48 n && Nat.leb n 57)%bool.

Fixpoint all_digits (s : string) : bool :=
  match s with
  | EmptyString => true
  | String c rest => (is_digit c && all_digits rest)%bool
  end.

Definition phoneNumberPattern (s : string) : bool :=
  match s with
  | String c rest =>
      (Ascii.eqb c "0"%char && Nat.eqb (String.length rest) 9 && all_digits rest)%bool
  | EmptyString => false
  end.

(** [res.json(result)] for the object [processPayment] returns. *)
Definition processResultJson (r : ProcessResult) : value :=
  VObj (("success", VBool (pr_success r))
        :: match pr_paymentId r with
           | Some v => [("paymentId", v)]
           | None => []
           end
        ++ [("status", pr_status r); ("instructions", VStr (pr_instructions r))]).

(** The handler of [POST /api/payments/process]; the route runs
    [validatePaymentProcessing] before it (see [processEndpoint]). *)
Definition processRoute (body : ProcessBody) : M Response :=
  try_catch
    (if ((body_paymentLinkId body =? EmptyString) || (body_phoneNumber body =? EmptyString)
         || (body_customerName body =? EmptyString))%string%bool
     then ret (mkResponse 400
                 (VObj [("error", VStr "Payment link ID, phone number, and customer name are required");
                        ("code", VStr "VALIDATION_FAIL")]))
     else
       found <- getPaymentByLinkId (body_paymentLinkId body) ;;
       match found with
       | None =>
           ret (mkResponse 404
                  (VObj [("error", VStr "Payment link not found");
                         ("code", VStr "PAYMENT_LINK_NOT_FOUND")]))
       | Some payment =>
           result <- processPayment
                       {| pd_paymentLinkId := body_paymentLinkId body;
                          pd_amount := amount payment;
                          pd_currency := currency payment;
                          pd_phoneNumber := body_phoneNumber body;
                          pd_description := description payment;
                          pd_customerName := body_customerName body |} ;;
           ret (mkResponse 200 (processResultJson result))
       end)
    (fun error =>
       ret (mkResponse 500
              (VObj [("error", VStr "Payment processing failed");
                     ("details", VStr (message error))]))).

(* ===================================================================== *)
(** ** API key middleware (middleware/auth.js) *)
(* ===================================================================== *)

(** White space of [String.prototype.trim] among the code units a header
    value can hold (below 256): TAB, LF, VT, FF, CR, SP, NBSP. *)
Definition is_white_space (c : ascii) : bool :=
  let n := nat_of_ascii c in
  (Nat.eqb n 9 || Nat.eqb n 10 || Nat.eqb n 11 || Nat.eqb n 12 || Nat.eqb n 13
   || Nat.eqb n 32 || Nat.eqb n 160)%bool.

Fixpoint trimStart (s : string) : string :=
  match s with
  | EmptyString => EmptyString
  | String c rest => if is_white_space c then trimStart rest else s
  end.

Fixpoint trimEnd (s : string) : string :=
  match s with
  | EmptyString => EmptyString
  | String c rest =>
      match trimEnd rest with
      | EmptyString => if is_white_space c then EmptyString else String c EmptyString
      | kept => String c kept
      end
  end.

(** [s.trim()] *)
Definition trim (s : string) : string := trimEnd (trimStart s).

(** [process.env.CODESKYTZ_API_KEY || 'codeskytz-B7hbs5wsc09h'] *)
Definition API_KEY (env : option string) : string :=
  match env with
  | Some k => if (k =? EmptyString)%string then "codeskytz-B7hbs5wsc09h" else k
  | None => "codeskytz-B7hbs5wsc09h"
  end.

(** What a middleware does with a request. *)
Inductive Middleware : Type :=
| Next
| Respond (response : Response).

Definition invalidApiKey : Response :=
  mkResponse 403
    (VObj [("error", VStr "Invalid API key");
           ("message", VStr "The provided codeskytz-api-key is not valid");
           ("code", VStr "INVALID_API_KEY")]).

(** [authenticateApiKey] (middleware/auth.js, lines 20-52); the argument is
    [req.header('codeskytz-api-key')]. *)
Definition authenticateApiKey (key : string) (providedApiKey : option string) : Middleware :=
  match providedApiKey with
  | None | Some EmptyString =>
      Respond (mkResponse 401
                 (VObj [("error", VStr "Authentication required");
                        ("message", VStr "codeskytz-api-key header is required");
                        ("code", VStr "MISSING_API_KEY")]))
  | Some provided =>
      if negb (trim provided =? key)%string then Respond invalidApiKey else Next
  end.

(** [optionalAuth] (middleware/auth.js, lines 60-79). *)
Definition optionalAuth (key : string) (providedApiKey : option string) : Middleware :=
  match providedApiKey with
  | None | Some EmptyString => Next
  | Some provided => if (provided =? key)%string then Next else Respond invalidApiKey
  end.

(* ===================================================================== *)
(** ** More reference readings and sample data *)
(* ===================================================================== *)

(** Columns the service leaves alone. *)
Definition same_identity (before after : Payment) : Prop :=
  id after = id before /\
  payment_link_id after = payment_link_id before /\
  amount after = amount before /\
  currency after = currency before /\
  phone_number after = phone_number before /\
  customer_name after = customer_name before /\
  customer_email after = customer_email before /\
  description after = description before /\
  payment_reference after = payment_reference before /\
  payment_method after = payment_method before /\
  created_at after = created_at before.

(** The worlds one call can lead to: same rows, same identities. *)
Definition keeps_identity (w w' : World) : Prop :=
  Forall2 same_identity (payments w) (payments w').

Definition accepting (_ : Query) : option string := None.

(** A second payment, still pending. *)
Definition other_payment : Payment :=
  {| id := 2;
     payment_link_id := "9c1d7a52-0b3e-4f86-a2c4-6e8f1b2d3a47";
     amount := Qmake 2500 1;
     currency := Some "TZS";
     phone_number := None;
     customer_name := None;
     customer_email := None;
     description := Some "Invoice 7";
     status := "pending";
     payment_reference := None;
     external_payment_id := None;
     payment_method := None;
     fastlipa_response := None;
     created_at := 1760000300000;
     updated_at := 1760000300000;
     paid_at := None |}.

Definition two_payment_world : World :=
  {| payments := [sample_payment; other_payment];
     webhook_logs := [];
     clock := 1760000600000;
     rejects := fun _ => None;
     gateway := fun _ => Ok (VObj [("tranid", VStr "pay_test123"); ("status", VStr "pending")]);
     sent := [] |}.

Definition sample_callback : value :=
  VObj [("paymentReference", VStr "9c1d7a52-0b3e-4f86-a2c4-6e8f1b2d3a47");
        ("status", VStr "Cancelled"); ("paymentId", VStr "pay_cb_1")].

Definition sample_processBody : ProcessBody :=
  {| body_paymentLinkId := "3f2b6c1e-8d4a-4c57-9a10-5b7e2f6d9c01";
     body_phoneNumber := "0712345678";
     body_customerName := "Asha" |}.

(** [result.paymentId] of a call of [processPayment] that returned. *)
Definition pr_paymentId_of (r : Result ProcessResult) : option value :=
  match r with
  | Ok result => pr_paymentId result
  | Throw _ => None
  end.


(** The sample store facing a gateway that answers 200 with an empty
    object. *)
Definition malformed_world : World :=
  {| payments := [sample_payment];
     webhook_logs := [];
     clock := 1760000600000;
     rejects := fun _ => None;
     gateway := fun _ => Ok (VObj []);
     sent := [] |}.

(** A notification that names its transaction and nothing else. *)
Definition tranid_only_webhook : value :=
  VObj [("tranid", VStr "pay_test123"); ("status", VStr "success")].

Definition tranid_only_extracted : Extracted :=
  {| ex_transactionId := Some (VStr "pay_test123");
     ex_status := "success";
     ex_amount := None;
     ex_phoneNumber := None |}.

Definition sample_gateway_response : value :=
  VObj [("tranid", VStr "pay_test123"); ("status", VStr "pending")].

(** A callback for a link id nobody has, and one with a numeric status. *)
Definition stray_callback : value :=
  VObj [("paymentReference", VStr "no-such-link"); ("status", VStr "failed")].

Definition numeric_status_callback : value :=
  VObj [("paymentReference", VStr "9c1d7a52-0b3e-4f86-a2c4-6e8f1b2d3a47");
        ("status", VNum (Qmake 0 1))].

Definition unknown_link_processBody : ProcessBody :=
  {| body_paymentLinkId := "no-such-link";
     body_phoneNumber := "0712345678";
     body_customerName := "Asha" |}.


(* ===================================================================== *)
(** ** [validatePaymentProcessing] and the whole process route *)
(* ===================================================================== *)

Section Validation.

(** What the Joi library decides and says: whether a non-empty string is
    a UUID ([Joi.string().uuid()]), the length that [min] and [max]
    count, and the [details] of the error for a body that fails. *)
Variable joi_uuid : string -> bool.
Variable joi_length : string -> nat.
Variable joi_details : value -> value.

(** [Joi.string()...required()] with one more rule: the key is there,
    its value is a string, not the empty one, and the rule holds. *)
Definition joiString (rule : string -> bool) (v : option value) : bool :=
  match v with
  | Some (VStr s) => (negb (s =? EmptyString)%string && rule s)%bool
  | _ => false
  end.

(** The schema of [validatePaymentProcessing]: an object with the three
    keys and no other. *)
Definition paymentProcessingSchema (body : value) : bool :=
  match body with
  | VObj kvs =>
      (forallb (fun kv => existsb (String.eqb (fst kv))
                            ["paymentLinkId"; "phoneNumber"; "customerName"]) kvs
       && joiString joi_uuid (assoc "paymentLinkId" kvs)
       && joiString phoneNumberPattern (assoc "phoneNumber" kvs)
       && joiString (fun s => (Nat.leb 2 (joi_length s) && Nat.leb (joi_length s) 255)%bool)
            (assoc "customerName" kvs))%bool
  | _ => false
  end.

(** [validatePaymentProcessing]; the argument is [req.body] as
    [express.json()] leaves it, an object or an array. *)
Definition validatePaymentProcessing (body : value) : Middleware :=
  if paymentProcessingSchema body then Next
  else Respond (mkResponse 400
                  (VObj [("error", VStr "Validation failed");
                         ("code", VStr "VALIDATION_FAIL");
                         ("details", joi_details body)])).

(** The three fields of a body that passed. *)
Definition stringField (k : string) (body : value) : string :=
  match member k body with
  | Some (VStr s) => s
  | _ => EmptyString
  end.

Definition validatedBody (body : value) : ProcessBody :=
  {| body_paymentLinkId := stringField "paymentLinkId" body;
     body_phoneNumber := stringField "phoneNumber" body;
     body_customerName := stringField "customerName" body |}.

(** [app.post("/api/payments/process", validatePaymentProcessing, handler)]:
    the middleware first, then the handler [processRoute]. *)
Definition processEndpoint (body : value) : M Response :=
  match validatePaymentProcessing body with
  | Respond response => ret response
  | Next => processRoute (validatedBody body)
  end.

End Validation.

(** Stand-ins for the library in the examples. *)
Definition sample_uuid (s : string) : bool := Nat.eqb (String.length s) 36.

Definition sample_details (_ : value) : value := VArr [].

Definition unknown_link_body : value :=
  VObj [("paymentLinkId", VStr "7d2c9b1a-5e4f-4a3b-9c8d-1f2e3a4b5c6d");
        ("phoneNumber", VStr "0712345678");
        ("customerName", VStr "Asha")].

Definition invalid_link_body : value :=
  VObj [("paymentLinkId", VStr "no-such-link");
        ("phoneNumber", VStr "0712345678");
        ("customerName", VStr "Asha")].


(** The rows the reconciler's lookups return do not depend on the order
    in which the store hands rows over: at most one payment carries the
    extracted transaction id, and no two payments with the extracted
    phone number were created at the same time. *)
Definition lookup_determined (w : World) (e : Extracted) : Prop :=
  (forall transactionId p q,
      ex_transactionId e = Some transactionId ->
      In p (payments w) -> In q (payments w) ->
      external_payment_id p = Some (pgText transactionId) ->
      external_payment_id q = Some (pgText transactionId) ->
      p = q) /\
  (forall phoneNumber p q,
      ex_phoneNumber e = Some phoneNumber ->
      In p (payments w) -> In q (payments w) ->
      phone_number p = Some (pgText phoneNumber) ->
      phone_number q = Some (pgText phoneNumber) ->
      created_at p = created_at q ->
      p = q).


(* ===================================================================== *)
(** ** Reference readings used by the statements below *)
(* ===================================================================== *)

(** The vocabulary table of the reconciler, row by row: the raw words and
    the internal status they stand for. *)
Definition vocabulary : list (list string * string) :=
  [ (["success"; "successful"; "completed"; "paid"], "completed");
    (["failed"; "error"; "cancelled"; "canceled"], "failed");
    (["pending"; "processing"; "initiated"], "processing") ].

(** Reading the table: the first row that lists the word; [pending] when
    no row does. *)
Fixpoint vocabulary_lookup (table : list (list string * string)) (raw : string) : string :=
  match table with
  | [] => "pending"
  | (words, internal) :: rest =>
      if existsb (String.eqb raw) words then internal else vocabulary_lookup rest raw
  end.

(** Fallback reading of a field: the first key of the list whose value is
    truthy; a missing or falsy value passes to the next key. *)
Fixpoint firstTruthy (keys : list string) (o : value) : option value :=
  match keys with
  | [] => None
  | k :: rest => if truthy_opt (member k o) then member k o else firstTruthy rest o
  end.

(** The row the lookups of [findPayment] select when the store answers. *)
Definition lookupPayment (w : World) (e : Extracted) : option Payment :=
  let byExtId :=
    match ex_transactionId e with
    | Some transactionId => hd_error (select_by_external_id transactionId (payments w))
    | None => None
    end in
  match byExtId, ex_phoneNumber e with
  | None, Some phoneNumber => hd_error (select_recent_by_phone (clock w) phoneNumber (payments w))
  | _, _ => byExtId
  end.

(** Nothing stored answers to the extracted transaction id or, within the
    last hour, to the extracted phone number. *)
Definition unmatched (w : World) (e : Extracted) : Prop :=
  (forall transactionId p,
      ex_transactionId e = Some transactionId -> In p (payments w) ->
      external_payment_id p <> Some (pgText transactionId)) /\
  (forall phoneNumber p,
      ex_phoneNumber e = Some phoneNumber -> In p (payments w) ->
      phone_number p = Some (pgText phoneNumber) ->
      created_at p <= clock w - one_hour).

(** The world after an attempted audit INSERT. *)
Definition after_log (row : WebhookLog) (w : World) : World :=
  match rejects w (InsertWebhookLog row) with
  | Some _ => w
  | None => set_webhook_logs (webhook_logs w ++ [row]) w
  end.

(** The audit rows of the three outcomes. *)
Definition processedRow (webhookData : value) (payment : Payment) (w : World) : WebhookLog :=
  mkWebhookLog (Some (id payment)) webhookData "processed" None (clock w).

Definition noMatchRow (webhookData : value) (w : World) : WebhookLog :=
  mkWebhookLog None webhookData "no_matching_payment" None (clock w).

Definition errorRow (webhookData : value) (error : exn) (w : World) : WebhookLog :=
  mkWebhookLog None webhookData "error" (Some (message error)) (clock w).

(** The statement the reconciler's update sends. *)
Definition reconcilerUpdate (webhookData : value) (e : Extracted) (payment : Payment) (w : World)
    : Statement :=
  UpdatePayments
    (buildUpdateData (clock w) (internalStatusOf (ex_status e))
       (webhookBlob webhookData e (clock w)))
    (payment_link_id payment).

(* ===================================================================== *)
(** ** Equations of the primitives *)
(* ===================================================================== *)

Lemma logWebhookData_eq (webhookData : value) (st : string) (paymentId : option Z)
    (error : option string) (w : World) :
  logWebhookData webhookData st paymentId error w
  = (Ok tt, after_log (mkWebhookLog paymentId webhookData st error (clock w)) w).
Proof.
  unfold logWebhookData, try_catch, bind, now, pool_query, after_log, ret.
  destruct (rejects w _); reflexivity.
Qed.

Lemma updatePaymentStatus_eq (paymentLinkId st : string) (blob : value) (w : World) :
  updatePaymentStatus paymentLinkId st blob w
  = match rejects w (UpdatePayments (buildUpdateData (clock w) st blob) paymentLinkId) with
    | Some msg => (Throw (Error ("Failed to update payment status: " ++ msg)), w)
    | None =>
        let ps := map (update_row (clock w) (buildUpdateData (clock w) st blob) paymentLinkId)
                      (payments w) in
        (Ok (hd_error (filter (fun p => (payment_link_id p =? paymentLinkId)%string) ps)),
         set_payments ps w)
    end.
Proof.
  unfold updatePaymentStatus, try_catch, bind, now, pool_query, ret, throw.
  destruct (rejects w _); reflexivity.
Qed.

Lemma findPayment_world (e : Extracted) (w : World) : snd (findPayment e w) = w.
Proof.
  unfold findPayment, bind, pool_query, ret.
  destruct (ex_transactionId e) as [tid|]; simpl.
  - destruct (rejects w (SelectByExternalId tid)); simpl; [reflexivity|].
    destruct (hd_error _); [reflexivity|].
    destruct (ex_phoneNumber e) as [ph|]; [|reflexivity].
    destruct (rejects w (SelectRecentByPhone ph)); reflexivity.
  - destruct (ex_phoneNumber e) as [ph|]; [|reflexivity].
    destruct (rejects w (SelectRecentByPhone ph)); reflexivity.
Qed.

Lemma findPayment_healthy (e : Extracted) (w : World) :
  healthy w -> findPayment e w = (Ok (lookupPayment w e), w).
Proof.
  intros H. unfold findPayment, lookupPayment, bind, pool_query, ret.
  destruct (ex_transactionId e) as [tid|]; simpl.
  - rewrite (H (SelectByExternalId tid)); simpl.
    destruct (hd_error _); [reflexivity|].
    destruct (ex_phoneNumber e) as [ph|]; [|reflexivity].
    rewrite (H (SelectRecentByPhone ph)); reflexivity.
  - destruct (ex_phoneNumber e) as [ph|]; [|reflexivity].
    rewrite (H (SelectRecentByPhone ph)); reflexivity.
Qed.

(** The reconciler, path by path. *)
Lemma handleFastlipaWebhook_cases (webhookData : value) (w : World) :
  handleFastlipaWebhook webhookData w =
  match extract webhookData with
  | Throw error => (Throw error, after_log (errorRow webhookData error w) w)
  | Ok e =>
    match fst (findPayment e w) with
    | Throw error => (Throw error, after_log (errorRow webhookData error w) w)
    | Ok None => (Ok (noMatchResult e), after_log (noMatchRow webhookData w) w)
    | Ok (Some payment) =>
      if (status payment =? internalStatusOf (ex_status e))%string
      then (Ok (processedResult payment (internalStatusOf (ex_status e)) e),
            after_log (processedRow webhookData payment w) w)
      else
        match rejects w (reconcilerUpdate webhookData e payment w) with
        | Some msg =>
            let error := Error ("Failed to update payment status: " ++ msg) in
            (Throw error, after_log (errorRow webhookData error w) w)
        | None =>
            let w1 := snd (execute (reconcilerUpdate webhookData e payment w) w) in
            (Ok (processedResult payment (internalStatusOf (ex_status e)) e),
             after_log (processedRow webhookData payment w1) w1)
        end
    end
  end.
Proof.
  unfold handleFastlipaWebhook, try_catch, lift.
  unfold bind at 1.
  destruct (extract webhookData) as [e|err].
  - unfold bind at 1.
    pose proof (findPayment_world e w) as Hw.
    destruct (findPayment e w) as [[[p|]|err] w0]; simpl in Hw; subst w0; simpl.
    + destruct (status p =? internalStatusOf (ex_status e))%string; simpl.
      * unfold bind, ret. rewrite logWebhookData_eq. reflexivity.
      * unfold bind, ret, now. rewrite updatePaymentStatus_eq.
        unfold reconcilerUpdate.
        destruct (rejects w _); simpl.
        -- unfold throw. rewrite logWebhookData_eq. reflexivity.
        -- rewrite logWebhookData_eq. reflexivity.
    + unfold bind, ret. rewrite logWebhookData_eq. reflexivity.
    + unfold bind, throw. rewrite logWebhookData_eq. reflexivity.
  - unfold bind, throw. rewrite logWebhookData_eq. reflexivity.
Qed.

(* ===================================================================== *)
(** ** Facts about the store *)
(* ===================================================================== *)

Lemma after_log_payments (row : WebhookLog) (w : World) :
  payments (after_log row w) = payments w.
Proof. unfold after_log. destruct (rejects w _); reflexivity. Qed.

Lemma after_log_accepted (row : WebhookLog) (w : World) :
  rejects w (InsertWebhookLog row) = None ->
  webhook_logs (after_log row w) = (webhook_logs w ++ [row])%list.
Proof. intros H. unfold after_log. rewrite H. reflexivity. Qed.


Lemma opt_string_eqb_true (o : option string) (s : string) :
  opt_string_eqb o s = true <-> o = Some s.
Proof.
  destruct o as [x|]; simpl.
  - rewrite String.eqb_eq. split; congruence.
  - split; discriminate.
Qed.

Lemma hd_error_filter_In {A : Type} (f : A -> bool) (l : list A) (a : A) :
  hd_error (filter f l) = Some a -> In a l /\ f a = true.
Proof.
  intros H. apply filter_In.
  destruct (filter f l) as [|x rest]; [discriminate|].
  injection H as ->. left. reflexivity.
Qed.

Lemma filter_none {A : Type} (f : A -> bool) (l : list A) :
  (forall a, In a l -> f a = false) -> filter f l = [].
Proof.
  induction l as [|x l IH]; intros H; simpl; [reflexivity|].
  rewrite (H x (or_introl eq_refl)). apply IH. intros a Ha. apply H. right. exact Ha.
Qed.

Lemma newest_In (ps : list Payment) (p : Payment) : newest ps = Some p -> In p ps.
Proof.
  revert p. induction ps as [|x ps IH]; intros p H; simpl in H; [discriminate|].
  destruct (newest ps) as [q|].
  - destruct (created_at x <? created_at q).
    + right. apply IH. exact H.
    + injection H as ->. left. reflexivity.
  - injection H as ->. left. reflexivity.
Qed.

Lemma select_recent_by_phone_In (t : Z) (phoneNumber : value) (ps : list Payment) (p : Payment) :
  hd_error (select_recent_by_phone t phoneNumber ps) = Some p ->
  In p ps /\ phone_number p = Some (pgText phoneNumber) /\ t - one_hour < created_at p.
Proof.
  unfold select_recent_by_phone. intros H.
  destruct (newest _) as [q|] eqn:E; simpl in H; [|discriminate].
  injection H as ->. apply newest_In in E. apply filter_In in E.
  destruct E as [Hin Hf]. apply andb_true_iff in Hf. destruct Hf as [Hp Ht].
  apply opt_string_eqb_true in Hp. apply Z.ltb_lt in Ht. auto.
Qed.

Lemma lookupPayment_In (w : World) (e : Extracted) (p : Payment) :
  lookupPayment w e = Some p -> In p (payments w).
Proof.
  unfold lookupPayment. intros H.
  destruct (ex_transactionId e) as [tid|].
  - destruct (hd_error (select_by_external_id tid (payments w))) as [q|] eqn:E.
    + assert (q = p) as -> by (destruct (ex_phoneNumber e); congruence).
      apply hd_error_filter_In in E. tauto.
    + destruct (ex_phoneNumber e) as [ph|]; [|discriminate].
      apply select_recent_by_phone_In in H. tauto.
  - destruct (ex_phoneNumber e) as [ph|]; [|discriminate].
    apply select_recent_by_phone_In in H. tauto.
Qed.

Lemma unmatched_lookupPayment (w : World) (e : Extracted) :
  unmatched w e -> lookupPayment w e = None.
Proof.
  intros [Hid Hphone]. unfold lookupPayment.
  assert (Hsel : forall ph, ex_phoneNumber e = Some ph ->
            hd_error (select_recent_by_phone (clock w) ph (payments w)) = None).
  { intros ph Hph.
    destruct (hd_error _) as [q|] eqn:E; [|reflexivity].
    apply select_recent_by_phone_In in E. destruct E as [Hin [Hp Ht]].
    specialize (Hphone ph q Hph Hin Hp). lia. }
  destruct (ex_transactionId e) as [tid|].
  - unfold select_by_external_id. rewrite filter_none.
    + simpl. destruct (ex_phoneNumber e) as [ph|]; [apply Hsel|]; reflexivity.
    + intros a Ha. destruct (opt_string_eqb _ _) eqn:E; [|reflexivity].
      apply opt_string_eqb_true in E. exfalso. exact (Hid tid a eq_refl Ha E).
  - destruct (ex_phoneNumber e) as [ph|]; [apply Hsel|]; reflexivity.
Qed.

Lemma unmatched_findPayment (w : World) (e : Extracted) :
  unmatched w e ->
  fst (findPayment e w) = Ok None \/ exists error, fst (findPayment e w) = Throw error.
Proof.
  intros U. pose proof (unmatched_lookupPayment w e U) as L.
  unfold lookupPayment in L. unfold findPayment, bind, pool_query, ret.
  destruct (ex_transactionId e) as [tid|]; simpl.
  - destruct (rejects w (SelectByExternalId tid)); simpl; [eauto|].
    destruct (hd_error (select_by_external_id tid (payments w))).
    + destruct (ex_phoneNumber e); discriminate.
    + destruct (ex_phoneNumber e) as [ph|]; [|auto].
      destruct (rejects w (SelectRecentByPhone ph)); simpl; [eauto|].
      rewrite L. auto.
  - destruct (ex_phoneNumber e) as [ph|]; [|auto].
    destruct (rejects w (SelectRecentByPhone ph)); simpl; [eauto|].
    rewrite L. auto.
Qed.

Lemma internalStatusOf_vocabulary (raw : string) :
  internalStatusOf raw = vocabulary_lookup vocabulary raw.
Proof.
  unfold internalStatusOf, vocabulary. simpl.
  repeat match goal with
         | |- context [(raw =? ?word)%string] =>
             destruct (raw =? word)%string; simpl; try reflexivity
         end.
Qed.

Lemma firstTruthy_truthy (keys : list string) (o v : value) :
  firstTruthy keys o = Some v -> truthy v = true.
Proof.
  induction keys as [|k keys IH]; simpl; [discriminate|].
  destruct (truthy_opt (member k o)) eqn:E; [|exact IH].
  intros H. rewrite H in E. exact E.
Qed.

(** The row an accepted UPDATE of [updatePaymentStatus] leaves behind. *)
Lemma updated_row_fields (t : Z) (st : string) (blob : value) (p : Payment) :
  let p' := update_updated_at_column t (apply_update (buildUpdateData t st blob) p) in
  id p' = id p /\
  payment_link_id p' = payment_link_id p /\
  status p' = st /\
  fastlipa_response p' = match blob with VNull => None | _ => Some blob end /\
  updated_at p' = t /\
  paid_at p' = (if (st =? "completed")%string then Some t else paid_at p) /\
  external_payment_id p' =
    (if truthy blob && truthy_opt (member "payment_id" blob)
     then match nullable (member "payment_id" blob) with
          | VNull => None
          | v => Some (pgText v)
          end
     else external_payment_id p) /\
  phone_number p' = phone_number p /\
  created_at p' = created_at p.
Proof.
  unfold buildUpdateData, apply_update, update_updated_at_column.
  destruct (st =? "completed")%string;
    destruct (truthy blob && truthy_opt (member "payment_id" blob));
    cbn; repeat split; try reflexivity;
    destruct (nullable (member "payment_id" blob)); reflexivity.
Qed.

Lemma update_row_same_link (t : Z) (updateData : list (string * value)) (p : Payment) :
  update_row t updateData (payment_link_id p) p
  = update_updated_at_column t (apply_update updateData p).
Proof. unfold update_row. rewrite String.eqb_refl. reflexivity. Qed.

(** One delivery that finds its payment already in the normalised status. *)
Lemma delivery_without_transition (webhookData : value) (e : Extracted)
    (payment : Payment) (w : World) :
  extract webhookData = Ok e ->
  healthy w ->
  lookupPayment w e = Some payment ->
  status payment = internalStatusOf (ex_status e) ->
  handleFastlipaWebhook webhookData w
  = (Ok (processedResult payment (status payment) e),
     set_webhook_logs (webhook_logs w ++ [processedRow webhookData payment w]) w).
Proof.
  intros He Hw Hl Hs.
  rewrite handleFastlipaWebhook_cases, He, (findPayment_healthy e w Hw), Hl. simpl.
  rewrite <- Hs, String.eqb_refl.
  unfold after_log. rewrite (Hw (InsertWebhookLog _)). reflexivity.
Qed.

Lemma extract_status_reading (webhookData : value) (e : Extracted) :
  extract webhookData = Ok e ->
  match firstTruthy ["status"; "state"] webhookData with
  | Some (VStr s) => ex_status e = toLowerCase s
  | Some _ => False
  | None => ex_status e = "unknown"
  end.
Proof.
  intros H. unfold extract in H.
  destruct webhookData; try discriminate;
    unfold extractStatus in H; simpl in H |- *;
    try (injection H as <-; reflexivity).
  destruct (truthy_opt (assoc "status" kvs)) eqn:E1.
  - destruct (assoc "status" kvs) as [[| | |s| | |]|]; simpl in H; try discriminate.
    injection H as <-. reflexivity.
  - destruct (truthy_opt (assoc "state" kvs)) eqn:E2.
    + destruct (assoc "state" kvs) as [[| | |s| | |]|]; simpl in H; try discriminate.
      injection H as <-. reflexivity.
    + injection H as <-. reflexivity.
Qed.

(** A truthy [status] that is not a string has no [toLowerCase]: the
    extraction throws and the reconciler takes its [catch] path. *)
Lemma extract_non_string_status (webhookData v : value) :
  member "status" webhookData = Some v ->
  truthy v = true ->
  (forall s, v <> VStr s) ->
  extract webhookData
  = Throw (TypeError "webhookData.status.toLowerCase is not a function").
Proof.
  intros Hm Ht Hs. unfold extract, extractStatus.
  destruct webhookData; try discriminate.
  rewrite Hm. simpl. rewrite Ht.
  destruct v; try reflexivity. exfalso. exact (Hs s eq_refl).
Qed.

Lemma extract_fields (webhookData : value) (e : Extracted) :
  extract webhookData = Ok e ->
  ex_transactionId e = extractTransactionId webhookData /\
  ex_phoneNumber e = extractPhoneNumber webhookData /\
  ex_amount e = extractAmount webhookData.
Proof.
  intros H. unfold extract in H.
  destruct webhookData; try discriminate;
    destruct (extractStatus _); try discriminate;
    injection H as <-; simpl; auto.
Qed.

Lemma startsWith_255 (s : string) :
  startsWith "255" s = true -> s = "255" ++ substring_from 3 s.
Proof.
  unfold startsWith. intros H.
  destruct s as [|a [|b [|c rest]]]; simpl in H; try discriminate;
    repeat match type of H with
           | (if ?d then _ else _) = true => destruct d; [subst|discriminate]
           end; try discriminate.
  reflexivity.
Qed.

Lemma Forall2_map_right {A : Type} (R : A -> A -> Prop) (f : A -> A) (l : list A) :
  (forall a, R a (f a)) -> Forall2 R l (map f l).
Proof.
  intros H. induction l as [|a l IH]; simpl; constructor; auto.
Qed.

Lemma update_row_other_link (t : Z) (updateData : list (string * value))
    (paymentLinkId : string) (ps : list Payment) :
  (forall p, In p ps -> payment_link_id p <> paymentLinkId) ->
  map (update_row t updateData paymentLinkId) ps = ps /\
  filter (fun p => (payment_link_id p =? paymentLinkId)%string)
         (map (update_row t updateData paymentLinkId) ps) = [].
Proof.
  intros H.
  assert (M : map (update_row t updateData paymentLinkId) ps = ps).
  { induction ps as [|p ps IH]; simpl; [reflexivity|].
    rewrite IH by (intros q Hq; apply H; right; exact Hq).
    unfold update_row.
    destruct (payment_link_id p =? paymentLinkId)%string eqn:E; [|reflexivity].
    apply String.eqb_eq in E. exfalso. exact (H p (or_introl eq_refl) E). }
  split; [exact M|]. rewrite M. apply filter_none.
  intros p Hp. apply String.eqb_neq. apply H. exact Hp.
Qed.

Lemma set_payments_same (w : World) : set_payments (payments w) w = w.
Proof. destruct w. reflexivity. Qed.

Lemma updatePaymentStatus_sent (paymentLinkId st : string) (blob : value) (w : World) :
  sent (snd (updatePaymentStatus paymentLinkId st blob w)) = sent w.
Proof.
  rewrite updatePaymentStatus_eq. destruct (rejects w _); reflexivity.
Qed.

Lemma processPayment_catch_eq (paymentData : PaymentData) (error : exn) (w : World) :
  let blob := VObj [("error", VStr (message error))] in
  let link := pd_paymentLinkId paymentData in
  processPayment_catch paymentData error w
  = match rejects w (UpdatePayments (buildUpdateData (clock w) "failed" blob) link) with
    | Some msg => (Throw (Error ("Failed to update payment status: " ++ msg)), w)
    | None =>
        (Throw (Error ("Payment processing failed: " ++ message error)),
         set_payments
           (map (update_row (clock w) (buildUpdateData (clock w) "failed" blob) link)
                (payments w)) w)
    end.
Proof.
  intros blob link. unfold processPayment_catch, bind, throw.
  rewrite updatePaymentStatus_eq. fold blob link.
  destruct (rejects w _); reflexivity.
Qed.

Lemma processPayment_catch_sent (paymentData : PaymentData) (error : exn) (w : World) :
  sent (snd (processPayment_catch paymentData error w)) = sent w.
Proof.
  rewrite processPayment_catch_eq. destruct (rejects w _); reflexivity.
Qed.

Lemma processPayment_try_sent (paymentData : PaymentData) (w : World) :
  sent (snd (processPayment_try paymentData w))
  = (sent w ++ [paymentPayload paymentData])%list.
Proof.
  unfold processPayment_try.
  unfold bind at 1. unfold axios_post at 1.
  destruct (gateway w (paymentPayload paymentData)) as [data|err]; [|reflexivity].
  unfold bind at 1.
  pose proof (updatePaymentStatus_sent (pd_paymentLinkId paymentData) "processing" data
                (set_sent (sent w ++ [paymentPayload paymentData]) w)) as S1.
  destruct (updatePaymentStatus _ "processing" data _) as [[r|err] w1]; simpl in S1;
    [|exact S1].
  unfold bind, lift, ret.
  destruct (readData "tranid" data) as [tranid|]; [|exact S1].
  destruct (truthy_opt tranid); simpl.
  - destruct (readData "status" data); exact S1.
  - destruct (readData "transaction_id" data); [|exact S1].
    destruct (readData "status" data); exact S1.
Qed.

Lemma processPayment_sent (paymentData : PaymentData) (w : World) :
  sent (snd (processPayment paymentData w)) = (sent w ++ [paymentPayload paymentData])%list.
Proof.
  unfold processPayment, try_catch.
  pose proof (processPayment_try_sent paymentData w) as S1.
  destruct (processPayment_try paymentData w) as [[r|err] w1]; simpl in S1; [exact S1|].
  rewrite processPayment_catch_sent. exact S1.
Qed.

(** A throwing gateway call ends the [try] block at once. *)
Lemma processPayment_try_gateway_throw (paymentData : PaymentData) (error : exn) (w : World) :
  gateway w (paymentPayload paymentData) = Throw error ->
  processPayment_try paymentData w
  = (Throw error, set_sent (sent w ++ [paymentPayload paymentData]) w).
Proof.
  intros H. unfold processPayment_try.
  unfold bind at 1. unfold axios_post at 1. rewrite H. reflexivity.
Qed.

(** Whatever the [try] block throws, the [catch] block marks the payment
    and throws in its turn. *)
Lemma processPayment_after_throw (paymentData : PaymentData) (error : exn) (w w1 : World) :
  processPayment_try paymentData w = (Throw error, w1) ->
  let link := pd_paymentLinkId paymentData in
  let blob := VObj [("error", VStr (message error))] in
  let outcome := processPayment paymentData w in
  is_throw (fst outcome) = true /\
  (rejects w1 (UpdatePayments (buildUpdateData (clock w1) "failed" blob) link) = None ->
   fst outcome = Throw (Error ("Payment processing failed: " ++ message error)) /\
   Forall2 (fun before after =>
              if (payment_link_id before =? link)%string
              then status after = "failed" /\
                   fastlipa_response after = Some blob /\
                   id after = id before /\
                   payment_link_id after = link
              else after = before)
           (payments w1) (payments (snd outcome))).
Proof.
  intros H link blob outcome. subst outcome.
  unfold processPayment, try_catch. rewrite H, processPayment_catch_eq.
  fold link blob.
  destruct (rejects w1 (UpdatePayments (buildUpdateData (clock w1) "failed" blob) link)) eqn:R;
    simpl.
  - split; [reflexivity|]. discriminate.
  - split; [reflexivity|]. intros _. split; [reflexivity|].
    apply Forall2_map_right. intros p. unfold update_row.
    destruct (payment_link_id p =? link)%string eqn:E; [|reflexivity].
    apply String.eqb_eq in E.
    repeat split; try reflexivity. exact E.
Qed.

(** A response that is not [null], recorded by the store: the [try] block
    runs to its end. *)
Lemma processPayment_try_success (paymentData : PaymentData) (data : value) (w : World) :
  gateway w (paymentPayload paymentData) = Ok data ->
  data <> VNull ->
  rejects w (UpdatePayments (buildUpdateData (clock w) "processing" data)
               (pd_paymentLinkId paymentData)) = None ->
  processPayment paymentData w
  = (Ok {| pr_success := true;
           pr_paymentId := if truthy_opt (member "tranid" data) then member "tranid" data
                           else member "transaction_id" data;
           pr_status := if truthy_opt (member "status" data)
                        then nullable (member "status" data) else VStr "pending";
           pr_instructions :=
             "Payment initiated successfully. Use the transaction ID to check status." |},
     set_payments
       (map (update_row (clock w) (buildUpdateData (clock w) "processing" data)
               (pd_paymentLinkId paymentData)) (payments w))
       (set_sent (sent w ++ [paymentPayload paymentData]) w)).
Proof.
  intros G N R. unfold processPayment, try_catch, processPayment_try.
  unfold bind at 1. unfold axios_post at 1. rewrite G.
  unfold bind at 1. rewrite updatePaymentStatus_eq. simpl. rewrite R.
  unfold bind, lift, ret.
  destruct data; try contradiction; simpl;
    try reflexivity;
    destruct (truthy_opt (assoc "tranid" kvs)); reflexivity.
Qed.

(** The blob of the reconciler has no [payment_id] key, so its update
    never names the [external_payment_id] column. *)
Lemma webhookBlob_has_no_payment_id (webhookData : value) (e : Extracted) (t : Z) (st : string) :
  member "payment_id" (webhookBlob webhookData e t) = None /\
  assoc "external_payment_id" (buildUpdateData t st (webhookBlob webhookData e t)) = None.
Proof.
  split; [reflexivity|].
  unfold buildUpdateData. destruct (st =? "completed")%string; reflexivity.
Qed.

(** A blob with a truthy [payment_id] does name the column. *)
Lemma payment_id_key_is_persisted (t : Z) (st : string) (blob v : value) :
  truthy blob = true -> member "payment_id" blob = Some v -> truthy v = true ->
  assoc "external_payment_id" (buildUpdateData t st blob) = Some v.
Proof.
  intros Hb Hm Hv. unfold buildUpdateData. rewrite Hb, Hm. simpl. rewrite Hv.
  destruct (st =? "completed")%string; reflexivity.
Qed.

(* ===================================================================== *)
(** ** The claims *)
(* ===================================================================== *)

(** C1. The reconciler maps the extracted, lower-cased raw status to the
    internal status exactly as the vocabulary table says: the [switch]
    agrees with the table on every string; the raw status is the
    lower-cased [status], else [state], else the word [unknown], which the
    table sends to [pending]; and for a matched payload on a store that
    answers, the table's entry is the [newStatus] of the result and the
    status of the matched row afterwards. *)
Theorem C1_status_vocabulary :
  (forall raw, internalStatusOf raw = vocabulary_lookup vocabulary raw) /\
  vocabulary_lookup vocabulary "unknown" = "pending" /\
  (forall webhookData e,
      extract webhookData = Ok e ->
      match firstTruthy ["status"; "state"] webhookData with
      | Some (VStr s) => ex_status e = toLowerCase s
      | Some _ => False
      | None => ex_status e = "unknown"
      end) /\
  (forall webhookData e payment w,
      extract webhookData = Ok e ->
      healthy w ->
      lookupPayment w e = Some payment ->
      let internal := vocabulary_lookup vocabulary (ex_status e) in
      let outcome := handleFastlipaWebhook webhookData w in
      fst outcome = Ok (processedResult payment internal e) /\
      exists row, In row (payments (snd outcome)) /\ id row = id payment /\ status row = internal).
Proof.
  split; [exact internalStatusOf_vocabulary|].
  split; [reflexivity|].
  split.
  - exact extract_status_reading.
  - intros webhookData e payment w He Hw Hl internal outcome.
    subst outcome internal. rewrite <- internalStatusOf_vocabulary.
    rewrite handleFastlipaWebhook_cases, He, (findPayment_healthy e w Hw), Hl. simpl.
    destruct (status payment =? internalStatusOf (ex_status e))%string eqn:E.
    + simpl. split; [reflexivity|]. exists payment.
      rewrite after_log_payments. apply String.eqb_eq in E.
      split; [exact (lookupPayment_In w e payment Hl)|]. auto.
    + rewrite (Hw (reconcilerUpdate webhookData e payment w)). simpl.
      split; [reflexivity|].
      rewrite after_log_payments. simpl.
      exists (update_row (clock w)
                (buildUpdateData (clock w) (internalStatusOf (ex_status e))
                   (webhookBlob webhookData e (clock w)))
                (payment_link_id payment) payment).
      split; [apply in_map; exact (lookupPayment_In w e payment Hl)|].
      rewrite update_row_same_link.
      pose proof (updated_row_fields (clock w) (internalStatusOf (ex_status e))
                    (webhookBlob webhookData e (clock w)) payment) as F.
      simpl in F. tauto.
Qed.


(** C3. A payload whose extracted transaction id equals no stored
    [external_payment_id] and whose extracted phone number belongs to no
    payment created within the last hour changes no payment row; on a store
    that answers, the reconciler returns, without throwing,
    [{success:false, message:"No matching payment found",
      receivedData:{transactionId, phoneNumber, status}}]
    and writes exactly one audit row, with outcome [no_matching_payment]
    and a null payment reference. *)
Theorem C3_unmatched_webhook (webhookData : value) (e : Extracted) (w : World) :
  extract webhookData = Ok e ->
  unmatched w e ->
  let outcome := handleFastlipaWebhook webhookData w in
  payments (snd outcome) = payments w /\
  (healthy w ->
   fst outcome
   = Ok (VObj [("success", VBool false);
               ("message", VStr "No matching payment found");
               ("receivedData",
                VObj [("transactionId", nullable (ex_transactionId e));
                      ("phoneNumber", nullable (ex_phoneNumber e));
                      ("status", VStr (ex_status e))])]) /\
   webhook_logs (snd outcome)
   = (webhook_logs w
      ++ [mkWebhookLog None webhookData "no_matching_payment" None (clock w)])%list).
Proof.
  intros He U outcome. subst outcome.
  rewrite handleFastlipaWebhook_cases, He.
  split.
  - destruct (unmatched_findPayment w e U) as [F|[err F]]; rewrite F; simpl;
      apply after_log_payments.
  - intros Hw. rewrite (findPayment_healthy e w Hw), (unmatched_lookupPayment w e U). simpl.
    split; [reflexivity|]. apply after_log_accepted, Hw.
Qed.

(** C4. When the matched payment already has the normalised internal
    status, a delivery on a store that answers updates no payment (the
    table is unchanged) and still writes one [processed] audit row; so a
    second delivery of the same payload, which again finds a payment
    already in that status, leaves the payments as they were before the
    first and the audit trail two [processed] rows longer. *)
Theorem C4_idempotent_redelivery (webhookData : value) (e : Extracted)
    (payment : Payment) (w : World) :
  extract webhookData = Ok e ->
  healthy w ->
  lookupPayment w e = Some payment ->
  status payment = internalStatusOf (ex_status e) ->
  let first := handleFastlipaWebhook webhookData w in
  fst first = Ok (processedResult payment (status payment) e) /\
  payments (snd first) = payments w /\
  webhook_logs (snd first)
  = (webhook_logs w
     ++ [mkWebhookLog (Some (id payment)) webhookData "processed" None (clock w)])%list /\
  (forall w2 payment2,
      payments w2 = payments (snd first) ->
      webhook_logs w2 = webhook_logs (snd first) ->
      healthy w2 ->
      lookupPayment w2 e = Some payment2 ->
      status payment2 = internalStatusOf (ex_status e) ->
      let second := handleFastlipaWebhook webhookData w2 in
      fst second = Ok (processedResult payment2 (status payment2) e) /\
      payments (snd second) = payments w /\
      webhook_logs (snd second)
      = (webhook_logs w
         ++ [mkWebhookLog (Some (id payment)) webhookData "processed" None (clock w);
             mkWebhookLog (Some (id payment2)) webhookData "processed" None (clock w2)])%list).
Proof.
  intros He Hw Hl Hs first. subst first.
  rewrite (delivery_without_transition webhookData e payment w He Hw Hl Hs). simpl.
  split; [reflexivity|]. split; [reflexivity|]. split; [reflexivity|].
  intros w2 payment2 Hp2 Hl2 Hw2 Hlk2 Hs2.
  rewrite (delivery_without_transition webhookData e payment2 w2 He Hw2 Hlk2 Hs2). simpl.
  rewrite Hp2, Hl2, <- app_assoc.
  split; [reflexivity|]. split; reflexivity.
Qed.

(** C5 (as amended).  A call of [updatePaymentStatus] whose link id
    belongs to no stored payment returns normally, with no record
    ([undefined]), and leaves the store as it was; it throws only when the
    store refuses the UPDATE, and then the error is
    [Failed to update payment status: ...]. *)
Theorem C5_update_of_unknown_link (paymentLinkId st : string) (blob : value) (w : World) :
  (forall p, In p (payments w) -> payment_link_id p <> paymentLinkId) ->
  updatePaymentStatus paymentLinkId st blob w
  = match rejects w (UpdatePayments (buildUpdateData (clock w) st blob) paymentLinkId) with
    | None => (Ok None, w)
    | Some msg => (Throw (Error ("Failed to update payment status: " ++ msg)), w)
    end.
Proof.
  intros H. rewrite updatePaymentStatus_eq.
  destruct (rejects w _); [reflexivity|]. simpl.
  destruct (update_row_other_link (clock w) (buildUpdateData (clock w) st blob)
              paymentLinkId (payments w) H) as [M F].
  rewrite F, M, set_payments_same. reflexivity.
Qed.

(** C6 (the code at the failing input).  The sample webhook carries the
    transaction id [pay_test123] and is matched, by phone number, to the
    sample payment; the reconciler's update moves the payment to
    [completed], but its [external_payment_id] is still null afterwards:
    the blob says [externalPaymentId] where [updatePaymentStatus] reads
    [payment_id]. *)
Theorem C6_transaction_id_not_persisted :
  let outcome := handleFastlipaWebhook sample_webhook sample_world in
  ex_transactionId sample_extracted = Some (VStr "pay_test123") /\
  fst outcome = Ok (processedResult sample_payment "completed" sample_extracted) /\
  map status (payments (snd outcome)) = ["completed"] /\
  map external_payment_id (payments (snd outcome)) = [None] /\
  map fastlipa_response (payments (snd outcome))
  = [Some (VObj [("webhookData", sample_webhook);
                 ("externalPaymentId", VStr "pay_test123");
                 ("fastlipaStatus", VStr "success");
                 ("processedAt", VDate (clock sample_world))])].
Proof. repeat split. Qed.

(** C7. The number [processPayment] sends to the gateway is the input
    phone number without its first three characters when the input starts
    with [255], and the input itself otherwise; [255712345678] goes out as
    [712345678] and [0712345678] as [0712345678]. *)
Theorem C7_phone_normalization (paymentData : PaymentData) (w : World) :
  let phone := pd_phoneNumber paymentData in
  exists request,
    sent (snd (processPayment paymentData w)) = (sent w ++ [request])%list /\
    req_number request = localPhoneNumber phone /\
    (if startsWith "255" phone
     then phone = "255" ++ req_number request
     else req_number request = phone) /\
    localPhoneNumber "255712345678" = "712345678" /\
    localPhoneNumber "0712345678" = "0712345678".
Proof.
  intros phone. exists (paymentPayload paymentData).
  split; [apply processPayment_sent|].
  split; [reflexivity|].
  split; [|split; reflexivity].
  simpl. unfold localPhoneNumber. fold phone.
  destruct (startsWith "255" phone) eqn:E; [|reflexivity].
  apply startsWith_255. exact E.
Qed.

(** C8 (as amended).  When the gateway call of [processPayment] throws
    (a network error, a response outside 2xx), the caller gets an
    exception, never a result; and when the store accepts the update,
    every payment with the link id has status [failed] and response blob
    [{error: <message>}] afterwards, the other rows are untouched, and the
    exception raised is [Payment processing failed: <message>].  A
    response that the call returns is not examined: whatever its shape, if
    it is not [null] and the store records it, [processPayment] returns
    without throwing and the payments with the link id are [processing]
    with the response as blob. *)
Theorem C8_gateway_throw_marks_failed (paymentData : PaymentData) (w : World) :
  let link := pd_paymentLinkId paymentData in
  let outcome := processPayment paymentData w in
  (forall error,
      gateway w (paymentPayload paymentData) = Throw error ->
      let blob := VObj [("error", VStr (message error))] in
      is_throw (fst outcome) = true /\
      (rejects w (UpdatePayments (buildUpdateData (clock w) "failed" blob) link) = None ->
       fst outcome = Throw (Error ("Payment processing failed: " ++ message error)) /\
       Forall2 (fun p p' =>
                  if (payment_link_id p =? link)%string
                  then status p' = "failed" /\
                       fastlipa_response p' = Some blob /\
                       id p' = id p /\
                       payment_link_id p' = link
                  else p' = p)
               (payments w) (payments (snd outcome)))) /\
  (forall data,
      gateway w (paymentPayload paymentData) = Ok data ->
      data <> VNull ->
      rejects w (UpdatePayments (buildUpdateData (clock w) "processing" data) link) = None ->
      is_throw (fst outcome) = false /\
      Forall2 (fun p p' =>
                 if (payment_link_id p =? link)%string
                 then status p' = "processing" /\ fastlipa_response p' = Some data
                 else p' = p)
              (payments w) (payments (snd outcome))).
Proof.
  intros link outcome. split.
  - intros error H blob.
    exact (processPayment_after_throw paymentData error w _
             (processPayment_try_gateway_throw paymentData error w H)).
  - intros data G N R. subst outcome.
    rewrite (processPayment_try_success paymentData data w G N R). simpl.
    split; [reflexivity|].
    apply Forall2_map_right. intros p. unfold update_row. fold link.
    destruct (payment_link_id p =? link)%string; [|reflexivity].
    pose proof (updated_row_fields (clock w) "processing" data p) as F. cbv zeta in F.
    destruct F as (_ & _ & F3 & F4 & _).
    split; [exact F3|]. destruct data; try contradiction; exact F4.
Qed.

(** C9. In every call of [updatePaymentStatus] the UPDATE names [paid_at],
    with the current time, exactly when the new status is [completed], and
    always names [updated_at] with the current time; so, when the store
    accepts it, each payment with the link id gets a fresh [updated_at],
    and a [paid_at] equal to the current time for [completed] and equal to
    its former value for any other status. *)
Theorem C9_paid_at_only_when_completed (paymentLinkId st : string) (blob : value) (w : World) :
  let updateData := buildUpdateData (clock w) st blob in
  assoc "updated_at" updateData = Some (VDate (clock w)) /\
  assoc "paid_at" updateData
  = (if (st =? "completed")%string then Some (VDate (clock w)) else None) /\
  (rejects w (UpdatePayments updateData paymentLinkId) = None ->
   Forall2 (fun before after =>
              if (payment_link_id before =? paymentLinkId)%string
              then updated_at after = clock w /\
                   paid_at after
                   = (if (st =? "completed")%string then Some (clock w) else paid_at before)
              else after = before)
           (payments w)
           (payments (snd (updatePaymentStatus paymentLinkId st blob w)))).
Proof.
  intros updateData. subst updateData.
  split; [reflexivity|].
  split.
  - unfold buildUpdateData.
    destruct (st =? "completed")%string;
      destruct (truthy blob && truthy_opt (member "payment_id" blob)); reflexivity.
  - intros R. rewrite updatePaymentStatus_eq, R. simpl.
    apply Forall2_map_right. intros p. unfold update_row.
    destruct (payment_link_id p =? paymentLinkId)%string; [|reflexivity].
    pose proof (updated_row_fields (clock w) st blob p) as F. simpl in F.
    destruct F as [_ [_ [_ [_ [F5 [F6 _]]]]]]. split; assumption.
Qed.

(** C10. In the reconciler's extraction a key whose value is falsy (the
    empty string, zero, [null], [false]) or missing counts as absent and
    the next key is consulted: the transaction id is the first truthy of
    [tranid], [transaction_id], [id]; the phone number the first truthy of
    [number], [phone_number]; the raw status the lower-cased first truthy
    of [status], [state], and the word [unknown], mapped to [pending], when
    both are falsy; with no transaction id extracted the lookup goes
    straight to the phone number, and with one it starts from the external
    id. *)
Theorem C10_falsy_values_fall_through :
  (forall v,
      truthy v = false <->
      v = VNull \/ v = VBool false \/ (exists q, v = VNum q /\ Qnum q = 0) \/ v = VStr EmptyString) /\
  (forall webhookData e,
      extract webhookData = Ok e ->
      ex_transactionId e = firstTruthy ["tranid"; "transaction_id"; "id"] webhookData /\
      ex_phoneNumber e = firstTruthy ["number"; "phone_number"] webhookData /\
      match firstTruthy ["status"; "state"] webhookData with
      | Some (VStr s) => ex_status e = toLowerCase s
      | Some _ => False
      | None => ex_status e = "unknown" /\ internalStatusOf (ex_status e) = "pending"
      end) /\
  (forall e w,
      ex_transactionId e = None ->
      findPayment e w
      = match ex_phoneNumber e with
        | Some phoneNumber =>
            bind (pool_query (SelectRecentByPhone phoneNumber))
                 (fun rows => ret (hd_error rows)) w
        | None => (Ok None, w)
        end) /\
  (forall e w transactionId,
      ex_transactionId e = Some transactionId ->
      findPayment e w
      = bind (pool_query (SelectByExternalId transactionId))
             (fun rows =>
                match hd_error rows, ex_phoneNumber e with
                | None, Some phoneNumber =>
                    bind (pool_query (SelectRecentByPhone phoneNumber))
                         (fun rows' => ret (hd_error rows'))
                | found, _ => ret found
                end) w) /\
  fst (handleFastlipaWebhook fallback_webhook sample_world)
  = Ok (processedResult sample_payment "completed" fallback_extracted) /\
  extract (VObj [("tranid", VStr EmptyString); ("transaction_id", VStr "T")])
  = Ok (mkExtracted (Some (VStr "T")) "unknown" None None) /\
  extract (VObj [("status", VStr EmptyString); ("state", VStr "PAID")])
  = Ok (mkExtracted None "paid" None None) /\
  extract (VObj [("status", VStr EmptyString); ("state", VNum (Qmake 0 1))])
  = Ok (mkExtracted None "unknown" None None) /\
  extract (VObj [("number", VStr EmptyString); ("phone_number", VStr "0712345678")])
  = Ok (mkExtracted None "unknown" None (Some (VStr "0712345678"))).
Proof.
  split.
  { intros v. split.
    - destruct v as [|b|q|s| | |]; simpl; intros H; try discriminate.
      + auto.
      + subst b. auto.
      + right. right. left. exists q. split; [reflexivity|].
        apply Z.eqb_eq. destruct (Qnum q =? 0); [reflexivity|discriminate].
      + right. right. right. f_equal. apply String.eqb_eq.
        destruct (s =? EmptyString)%string; [reflexivity|discriminate].
    - intros [ -> | [ -> | [ [q [ -> Hq ] ] | -> ] ] ]; simpl; try reflexivity.
      rewrite Hq. reflexivity. }
  split.
  { intros webhookData e H.
    destruct (extract_fields webhookData e H) as [Ht [Hp _]].
    split; [exact Ht|]. split; [exact Hp|].
    pose proof (extract_status_reading webhookData e H) as Hs.
    destruct (firstTruthy ["status"; "state"] webhookData) as [[| | |s| | |]|]; try exact Hs.
    split; [exact Hs|]. rewrite Hs. reflexivity. }
  split.
  { intros e w H. unfold findPayment. rewrite H. unfold bind at 1. unfold ret at 1.
    destruct (ex_phoneNumber e); reflexivity. }
  split.
  { intros e w transactionId H. unfold findPayment. rewrite H. unfold bind, ret.
    destruct (pool_query (SelectByExternalId transactionId) w) as [[rows|err] w'];
      [|reflexivity].
    destruct (hd_error rows); [reflexivity|].
    destruct (ex_phoneNumber e); reflexivity. }
  repeat split.
Qed.

(* ===================================================================== *)
(** ** Further properties of the service *)
(* ===================================================================== *)

Lemma same_identity_refl (p : Payment) : same_identity p p.
Proof. unfold same_identity. repeat split. Qed.

Lemma same_identity_trans (p q r : Payment) :
  same_identity p q -> same_identity q r -> same_identity p r.
Proof.
  unfold same_identity. intros H1 H2.
  repeat match goal with H : _ /\ _ |- _ => destruct H end.
  repeat split; congruence.
Qed.

Lemma set_column_identity (field : string) (v : value) (p : Payment) :
  same_identity p (set_column field v p).
Proof.
  unfold set_column.
  repeat match goal with
         | |- context [if ?b then _ else _] => destruct b
         end; unfold same_identity; simpl; repeat split.
Qed.

Lemma apply_update_identity (updateData : list (string * value)) (p : Payment) :
  same_identity p (apply_update updateData p).
Proof.
  unfold apply_update. revert p.
  induction updateData as [|[f v] rest IH]; intros p; simpl.
  - apply same_identity_refl.
  - eapply same_identity_trans; [apply (set_column_identity f v)|apply IH].
Qed.

Lemma update_row_identity (t : Z) (updateData : list (string * value))
    (paymentLinkId : string) (p : Payment) :
  same_identity p (update_row t updateData paymentLinkId p).
Proof.
  unfold update_row. destruct (payment_link_id p =? paymentLinkId)%string.
  - eapply same_identity_trans; [apply apply_update_identity|].
    unfold update_updated_at_column, same_identity. simpl. repeat split.
  - apply same_identity_refl.
Qed.

Lemma Forall2_same_identity_refl (ps : list Payment) : Forall2 same_identity ps ps.
Proof. induction ps; constructor; auto using same_identity_refl. Qed.

Lemma Forall2_same_identity_trans (ps qs rs : list Payment) :
  Forall2 same_identity ps qs -> Forall2 same_identity qs rs -> Forall2 same_identity ps rs.
Proof.
  intros H. revert rs. induction H as [|p q ps qs Hpq _ IH]; intros rs H2.
  - inversion H2. constructor.
  - inversion H2 as [|q' r qs' rs' Hqr Hrest]; subst.
    constructor; [exact (same_identity_trans p q r Hpq Hqr)|apply IH; exact Hrest].
Qed.

Lemma keeps_identity_refl (w : World) : keeps_identity w w.
Proof. apply Forall2_same_identity_refl. Qed.

Lemma keeps_identity_trans (w1 w2 w3 : World) :
  keeps_identity w1 w2 -> keeps_identity w2 w3 -> keeps_identity w1 w3.
Proof. apply Forall2_same_identity_trans. Qed.

Lemma updatePaymentStatus_identity (paymentLinkId st : string) (blob : value) (w : World) :
  keeps_identity w (snd (updatePaymentStatus paymentLinkId st blob w)).
Proof.
  rewrite updatePaymentStatus_eq. destruct (rejects w _); simpl.
  - apply keeps_identity_refl.
  - unfold keeps_identity. simpl. apply Forall2_map_right. intros p.
    apply update_row_identity.
Qed.

Lemma after_log_identity (row : WebhookLog) (w : World) :
  keeps_identity w (after_log row w).
Proof.
  unfold keeps_identity. rewrite after_log_payments. apply Forall2_same_identity_refl.
Qed.

Lemma updatePaymentStatus_external_ids (paymentLinkId st : string) (blob : value) (w : World) :
  (truthy blob && truthy_opt (member "payment_id" blob))%bool = false ->
  map external_payment_id (payments (snd (updatePaymentStatus paymentLinkId st blob w)))
  = map external_payment_id (payments w).
Proof.
  intros H. rewrite updatePaymentStatus_eq. destruct (rejects w _); simpl; [reflexivity|].
  rewrite map_map. apply map_ext. intros p. unfold update_row.
  destruct (payment_link_id p =? paymentLinkId)%string; [|reflexivity].
  pose proof (updated_row_fields (clock w) st blob p) as F. cbv zeta in F.
  rewrite H in F. destruct F as (_ & _ & _ & _ & _ & _ & F7 & _). exact F7.
Qed.

Lemma callbackBlob_has_no_payment_id (callbackData : value) (paymentId : option value) :
  (truthy (callbackBlob callbackData paymentId)
   && truthy_opt (member "payment_id" (callbackBlob callbackData paymentId)))%bool = false.
Proof. destruct paymentId; reflexivity. Qed.

Lemma processPayment_try_identity (paymentData : PaymentData) (w : World) :
  keeps_identity w (snd (processPayment_try paymentData w)).
Proof.
  unfold processPayment_try.
  unfold bind at 1. unfold axios_post at 1.
  destruct (gateway w (paymentPayload paymentData)) as [data|err];
    [|exact (keeps_identity_refl w)].
  unfold bind at 1.
  pose proof (updatePaymentStatus_identity (pd_paymentLinkId paymentData) "processing" data
                (set_sent (sent w ++ [paymentPayload paymentData]) w)) as S1.
  destruct (updatePaymentStatus _ "processing" data _) as [[r|err] w1]; simpl in S1;
    [|exact S1].
  unfold bind, lift, ret.
  destruct (readData "tranid" data) as [tranid|]; [|exact S1].
  destruct (truthy_opt tranid); simpl.
  - destruct (readData "status" data); exact S1.
  - destruct (readData "transaction_id" data); [|exact S1].
    destruct (readData "status" data); exact S1.
Qed.

Lemma processPayment_identity (paymentData : PaymentData) (w : World) :
  keeps_identity w (snd (processPayment paymentData w)).
Proof.
  unfold processPayment, try_catch.
  pose proof (processPayment_try_identity paymentData w) as S1.
  destruct (processPayment_try paymentData w) as [[r|err] w1]; simpl in S1; [exact S1|].
  apply (keeps_identity_trans w w1); [exact S1|].
  unfold processPayment_catch, bind, throw.
  pose proof (updatePaymentStatus_identity (pd_paymentLinkId paymentData) "failed"
                (VObj [("error", VStr (message err))]) w1) as S2.
  destruct (updatePaymentStatus _ "failed" _ w1) as [[r2|e2] w2]; exact S2.
Qed.

Lemma handleFastlipaWebhook_payments (webhookData : value) (w : World) :
  payments (snd (handleFastlipaWebhook webhookData w)) = payments w \/
  exists e payment,
    extract webhookData = Ok e /\
    fst (findPayment e w) = Ok (Some payment) /\
    (status payment =? internalStatusOf (ex_status e))%string = false /\
    fst (handleFastlipaWebhook webhookData w)
    = Ok (processedResult payment (internalStatusOf (ex_status e)) e) /\
    payments (snd (handleFastlipaWebhook webhookData w))
    = map (update_row (clock w)
             (buildUpdateData (clock w) (internalStatusOf (ex_status e))
                (webhookBlob webhookData e (clock w)))
             (payment_link_id payment)) (payments w).
Proof.
  rewrite handleFastlipaWebhook_cases.
  destruct (extract webhookData) as [e|err]; simpl;
    [|left; apply after_log_payments].
  destruct (fst (findPayment e w)) as [[payment|]|err] eqn:F; simpl;
    try (left; apply after_log_payments).
  destruct (status payment =? internalStatusOf (ex_status e))%string eqn:E; simpl;
    [left; apply after_log_payments|].
  destruct (rejects w (reconcilerUpdate webhookData e payment w)); simpl;
    [left; apply after_log_payments|].
  right. exists e, payment. rewrite after_log_payments. simpl. auto.
Qed.

(** The UPDATE of the callback: nothing at all for a missing reference,
    [updatePaymentStatus] on the reference's text otherwise. *)
Lemma updatePaymentStatusOf_cases (paymentReference : option value) (st : string)
    (blob : value) (w : World) :
  match paymentReference with
  | None | Some VNull =>
      updatePaymentStatusOf paymentReference st blob w
      = match refuses (UpdatePaymentsNoLink (buildUpdateData (clock w) st blob)) with
        | Some msg => (Throw (Error ("Failed to update payment status: " ++ msg)), w)
        | None => (Ok None, w)
        end
  | Some v =>
      updatePaymentStatusOf paymentReference st blob w
      = updatePaymentStatus (pgText v) st blob w
  end.
Proof.
  destruct paymentReference as [[| | | | | |]|]; try reflexivity;
    unfold updatePaymentStatusOf, try_catch, bind, now, throw;
    destruct (refuses _); reflexivity.
Qed.

(** The callback, path by path. *)
Lemma handlePaymentCallback_cases (callbackData : option value) (w : World) :
  handlePaymentCallback callbackData w
  = match callbackData with
    | None =>
        (Throw (TypeError "Cannot destructure property 'paymentReference' of 'callbackData' as it is undefined."), w)
    | Some VNull =>
        (Throw (TypeError "Cannot destructure property 'paymentReference' of 'callbackData' as it is null."), w)
    | Some data =>
        match optionalToLowerCase (member "status" data) with
        | Throw error => (Throw error, w)
        | Ok lowered =>
            match updatePaymentStatusOf (member "paymentReference" data)
                    (callbackStatusOf lowered)
                    (callbackBlob data (member "paymentId" data)) w with
            | (Ok _, w1) => (Ok (VObj [("success", VBool true)]), w1)
            | (Throw error, w1) => (Throw error, w1)
            end
        end
    end.
Proof.
  unfold handlePaymentCallback, try_catch.
  destruct callbackData as [data|]; [|reflexivity].
  destruct data; try reflexivity;
    unfold bind at 1; unfold lift;
    (destruct (optionalToLowerCase _) as [lowered|err]; [|reflexivity]);
    unfold bind, ret, throw;
    destruct (updatePaymentStatusOf _ _ _ w) as [[r|err] w1]; reflexivity.
Qed.

Lemma handlePaymentCallback_world (callbackData : option value) (w : World) :
  snd (handlePaymentCallback callbackData w) = w \/
  exists v lowered data,
    callbackData = Some data /\
    member "paymentReference" data = Some v /\
    snd (handlePaymentCallback callbackData w)
    = snd (updatePaymentStatus (pgText v) (callbackStatusOf lowered)
             (callbackBlob data (member "paymentId" data)) w).
Proof.
  rewrite handlePaymentCallback_cases.
  destruct callbackData as [data|]; [|left; reflexivity].
  assert (G : forall d, d = data ->
            snd (match optionalToLowerCase (member "status" d) with
                 | Throw error => (Throw error, w)
                 | Ok lowered =>
                     match updatePaymentStatusOf (member "paymentReference" d)
                             (callbackStatusOf lowered)
                             (callbackBlob d (member "paymentId" d)) w with
                     | (Ok _, w1) => (Ok (VObj [("success", VBool true)]), w1)
                     | (Throw error, w1) => (Throw error, w1)
                     end
                 end) = w \/
            exists v lowered data0,
              Some d = Some data0 /\
              member "paymentReference" data0 = Some v /\
              snd (match optionalToLowerCase (member "status" d) with
                   | Throw error => (Throw error, w)
                   | Ok lowered =>
                       match updatePaymentStatusOf (member "paymentReference" d)
                               (callbackStatusOf lowered)
                               (callbackBlob d (member "paymentId" d)) w with
                       | (Ok _, w1) => (Ok (VObj [("success", VBool true)]), w1)
                       | (Throw error, w1) => (Throw error, w1)
                       end
                   end)
              = snd (updatePaymentStatus (pgText v) (callbackStatusOf lowered)
                       (callbackBlob data0 (member "paymentId" data0)) w)).
  { intros d _.
    destruct (optionalToLowerCase (member "status" d)) as [lowered|err]; [|left; reflexivity].
    pose proof (updatePaymentStatusOf_cases (member "paymentReference" d)
                  (callbackStatusOf lowered) (callbackBlob d (member "paymentId" d)) w) as U.
    destruct (member "paymentReference" d) as [v|] eqn:R.
    - destruct v.
      all: try (rewrite U; destruct (refuses _); left; reflexivity).
      all: right; eexists _, lowered, d; split; [reflexivity|]; split; [exact R|];
        rewrite U; destruct (updatePaymentStatus _ _ _ w) as [[r|err] w1]; reflexivity.
    - rewrite U. destruct (refuses _); left; reflexivity. }
  destruct data; try (left; reflexivity); exact (G _ eq_refl).
Qed.

(** X1. A delivery that finds its payment in another status than the
    normalised one, on a store that answers: every row with the payment's
    link id takes the new status and the reconciler's blob, a fresh
    [updated_at], and [paid_at] only when the new status is [completed]
    (otherwise [paid_at] stays, also on a payment that had been paid); the
    other rows are untouched, and one [processed] row is logged. *)
Theorem X1_reconciler_transition (webhookData : value) (e : Extracted)
    (payment : Payment) (w : World) :
  extract webhookData = Ok e ->
  healthy w ->
  lookupPayment w e = Some payment ->
  status payment <> internalStatusOf (ex_status e) ->
  let internal := internalStatusOf (ex_status e) in
  let outcome := handleFastlipaWebhook webhookData w in
  fst outcome = Ok (processedResult payment internal e) /\
  webhook_logs (snd outcome)
  = (webhook_logs w
     ++ [mkWebhookLog (Some (id payment)) webhookData "processed" None (clock w)])%list /\
  Forall2 (fun before after =>
             if (payment_link_id before =? payment_link_id payment)%string
             then status after = internal /\
                  fastlipa_response after = Some (webhookBlob webhookData e (clock w)) /\
                  updated_at after = clock w /\
                  paid_at after
                  = (if (internal =? "completed")%string then Some (clock w)
                     else paid_at before) /\
                  external_payment_id after = external_payment_id before
             else after = before)
          (payments w) (payments (snd outcome)).
Proof.
  intros He Hw Hl Hs internal outcome. subst outcome internal.
  rewrite handleFastlipaWebhook_cases, He, (findPayment_healthy e w Hw), Hl. simpl.
  apply String.eqb_neq in Hs. rewrite Hs.
  rewrite (Hw (reconcilerUpdate webhookData e payment w)). simpl.
  split; [reflexivity|].
  split.
  - refine (after_log_accepted _ (set_payments _ w) _). apply Hw.
  - rewrite after_log_payments. simpl.
    apply Forall2_map_right. intros p. unfold update_row.
    destruct (payment_link_id p =? payment_link_id payment)%string; [|reflexivity].
    pose proof (updated_row_fields (clock w) (internalStatusOf (ex_status e))
                  (webhookBlob webhookData e (clock w)) p) as F.
    cbv zeta in F.
    destruct F as (_ & _ & F3 & F4 & F5 & F6 & F7 & _).
    repeat split; assumption.
Qed.

(** X2. When the reconciler throws, no payment row has changed (the only
    statement that changes payments is its last before the audit row). *)
Theorem X2_reconciler_throw_keeps_payments (webhookData : value) (w : World) (error : exn) :
  fst (handleFastlipaWebhook webhookData w) = Throw error ->
  payments (snd (handleFastlipaWebhook webhookData w)) = payments w.
Proof.
  intros H.
  destruct (handleFastlipaWebhook_payments webhookData w) as [K|[e [payment [_ [_ [_ [R _]]]]]]];
    [exact K|].
  rewrite R in H. discriminate H.
Qed.

(** X3. No method of the service adds or removes a payment or changes a
    payment's id, link id, amount, currency, phone number, customer,
    description, reference, method or creation time; the reconciler and
    the legacy callback leave [external_payment_id] alone as well. *)
Theorem X3_service_keeps_identity (w : World) :
  (forall webhookData,
      let w' := snd (handleFastlipaWebhook webhookData w) in
      Forall2 same_identity (payments w) (payments w') /\
      map external_payment_id (payments w') = map external_payment_id (payments w)) /\
  (forall callbackData,
      let w' := snd (handlePaymentCallback callbackData w) in
      Forall2 same_identity (payments w) (payments w') /\
      map external_payment_id (payments w') = map external_payment_id (payments w)) /\
  (forall paymentData,
      Forall2 same_identity (payments w) (payments (snd (processPayment paymentData w)))) /\
  (forall paymentLinkId st blob,
      Forall2 same_identity (payments w)
        (payments (snd (updatePaymentStatus paymentLinkId st blob w)))).
Proof.
  split.
  { intros webhookData w'. subst w'.
    destruct (handleFastlipaWebhook_payments webhookData w)
      as [K|[e [payment [_ [_ [_ [_ K]]]]]]]; rewrite K.
    - split; [apply Forall2_same_identity_refl|reflexivity].
    - split.
      + apply Forall2_map_right. intros p. apply update_row_identity.
      + rewrite map_map. apply map_ext. intros p. unfold update_row.
        destruct (payment_link_id p =? payment_link_id payment)%string; [|reflexivity].
        pose proof (updated_row_fields (clock w) (internalStatusOf (ex_status e))
                      (webhookBlob webhookData e (clock w)) p) as F.
        cbv zeta in F. destruct F as (_ & _ & _ & _ & _ & _ & F7 & _). exact F7. }
  split.
  { intros callbackData w'. subst w'.
    destruct (handlePaymentCallback_world callbackData w)
      as [K|[v [lowered [data [_ [_ K]]]]]]; rewrite K.
    - split; [apply Forall2_same_identity_refl|reflexivity].
    - split.
      + apply updatePaymentStatus_identity.
      + apply updatePaymentStatus_external_ids, callbackBlob_has_no_payment_id. }
  split.
  { intros paymentData. apply processPayment_identity. }
  intros paymentLinkId st blob. apply updatePaymentStatus_identity.
Qed.

(** The webhook route, path by path. *)
Lemma webhookRoute_cases (body : option value) (w : World) :
  webhookRoute body w
  = match body with
    | None =>
        (Ok (mkResponse 400
               (VObj [("success", VBool false); ("error", VStr "Empty webhook data");
                      ("message", VStr "No data received in webhook")])), w)
    | Some webhookData =>
        if (negb (truthy webhookData) || Nat.eqb (Object_keys_length webhookData) 0)%bool
        then (Ok (mkResponse 400
                    (VObj [("success", VBool false); ("error", VStr "Empty webhook data");
                           ("message", VStr "No data received in webhook")])), w)
        else
          match handleFastlipaWebhook webhookData w with
          | (Ok result, w1) =>
              (Ok (mkResponse (if truthy_opt (member "success" result) then 200 else 400)
                     result), w1)
          | (Throw error, w1) =>
              (Ok (mkResponse 500
                     (VObj [("success", VBool false);
                            ("error", VStr "Webhook processing failed");
                            ("details", VStr (message error));
                            ("timestamp", VDate (clock w1))])), w1)
          end
    end.
Proof.
  unfold webhookRoute, try_catch.
  destruct body as [webhookData|]; [|reflexivity].
  destruct (negb (truthy webhookData) || Nat.eqb (Object_keys_length webhookData) 0)%bool;
    [reflexivity|].
  unfold bind, ret, now.
  destruct (handleFastlipaWebhook webhookData w) as [[result|error] w1]; reflexivity.
Qed.

(** X4. A webhook request with no body, a falsy body or a body without
    keys ([{}], [[]], a number, [true]) is answered 400 before the
    reconciler is called: nothing is stored, not even an audit row. *)
Theorem X4_webhookRoute_empty_body (body : option value) (w : World) :
  match body with
  | None => True
  | Some webhookData => truthy webhookData = false \/ Object_keys_length webhookData = O
  end ->
  webhookRoute body w
  = (Ok (mkResponse 400
           (VObj [("success", VBool false); ("error", VStr "Empty webhook data");
                  ("message", VStr "No data received in webhook")])), w).
Proof.
  intros H. rewrite webhookRoute_cases.
  destruct body as [webhookData|]; [|reflexivity].
  destruct H as [H|H]; rewrite H; simpl; [reflexivity|].
  rewrite orb_true_r. reflexivity.
Qed.

(** X5. For a body with keys whose extraction completes, on a store that
    answers, the webhook route answers 200 when the reconciler found a
    payment and 400 when it did not; the response body is the
    reconciler's result and the store is left as the reconciler left it. *)
Theorem X5_webhookRoute_status_code (webhookData : value) (e : Extracted) (w : World) :
  truthy webhookData = true ->
  Object_keys_length webhookData <> O ->
  extract webhookData = Ok e ->
  healthy w ->
  exists result,
    handleFastlipaWebhook webhookData w
    = (Ok result, snd (handleFastlipaWebhook webhookData w)) /\
    webhookRoute (Some webhookData) w
    = (Ok (mkResponse (match lookupPayment w e with Some _ => 200 | None => 400 end) result),
       snd (handleFastlipaWebhook webhookData w)).
Proof.
  intros Ht Hk He Hw. rewrite webhookRoute_cases, Ht.
  destruct (Nat.eqb_spec (Object_keys_length webhookData) 0) as [K|_]; [contradiction|].
  simpl.
  rewrite handleFastlipaWebhook_cases, He, (findPayment_healthy e w Hw). simpl.
  destruct (lookupPayment w e) as [payment|].
  - destruct (status payment =? internalStatusOf (ex_status e))%string.
    + eexists. split; reflexivity.
    + rewrite (Hw (reconcilerUpdate webhookData e payment w)).
      eexists. split; reflexivity.
  - eexists. split; reflexivity.
Qed.

(** X6. Whatever makes the reconciler throw (a store that refuses a
    lookup or the update, a status that is not a string), the webhook
    route answers 500 with the error's message as [details], and no payment
    row has changed. *)
Theorem X6_webhookRoute_reconciler_throw (webhookData : value) (w : World) (error : exn) :
  truthy webhookData = true ->
  Object_keys_length webhookData <> O ->
  fst (handleFastlipaWebhook webhookData w) = Throw error ->
  let outcome := webhookRoute (Some webhookData) w in
  fst outcome
  = Ok (mkResponse 500
          (VObj [("success", VBool false); ("error", VStr "Webhook processing failed");
                 ("details", VStr (message error)); ("timestamp", VDate (clock w))])) /\
  payments (snd outcome) = payments w.
Proof.
  intros Ht Hk H outcome. subst outcome. rewrite webhookRoute_cases, Ht.
  destruct (Nat.eqb_spec (Object_keys_length webhookData) 0) as [K|_]; [contradiction|].
  simpl.
  destruct (handleFastlipaWebhook_payments webhookData w)
    as [P|[e [payment [_ [_ [_ [R _]]]]]]]; [|rewrite R in H; discriminate H].
  assert (C : clock (snd (handleFastlipaWebhook webhookData w)) = clock w).
  { rewrite handleFastlipaWebhook_cases.
    assert (A : forall row w0, clock (after_log row w0) = clock w0)
      by (intros row w0; unfold after_log; destruct (rejects w0 _); reflexivity).
    destruct (extract webhookData) as [e|err]; simpl; [|apply A].
    destruct (fst (findPayment e w)) as [[payment|]|err]; simpl; try apply A.
    destruct (status payment =? _)%string; simpl; [apply A|].
    destruct (rejects w _); simpl; [apply A|]. rewrite A. reflexivity. }
  destruct (handleFastlipaWebhook webhookData w) as [[result|err] w1];
    simpl in H, P, C |- *; [discriminate H|].
  injection H as ->. rewrite C. split; [reflexivity|exact P].
Qed.

(** X7. When the gateway accepts the request and the store records the
    response, [processPayment] returns [success] with the gateway's
    [tranid] (else [transaction_id]) as payment id and the gateway's status
    (else [pending]); every payment with the link id becomes [processing]
    with the response as blob, its [paid_at] unchanged, and its
    [external_payment_id] set only from a truthy [payment_id] key of the
    response; the other rows are untouched. *)
Theorem X7_processPayment_success (paymentData : PaymentData) (data : value) (w : World) :
  gateway w (paymentPayload paymentData) = Ok data ->
  data <> VNull ->
  rejects w (UpdatePayments (buildUpdateData (clock w) "processing" data)
               (pd_paymentLinkId paymentData)) = None ->
  let outcome := processPayment paymentData w in
  fst outcome
  = Ok {| pr_success := true;
          pr_paymentId := if truthy_opt (member "tranid" data) then member "tranid" data
                          else member "transaction_id" data;
          pr_status := if truthy_opt (member "status" data)
                       then nullable (member "status" data) else VStr "pending";
          pr_instructions :=
            "Payment initiated successfully. Use the transaction ID to check status." |} /\
  Forall2 (fun before after =>
             if (payment_link_id before =? pd_paymentLinkId paymentData)%string
             then status after = "processing" /\
                  fastlipa_response after = Some data /\
                  paid_at after = paid_at before /\
                  external_payment_id after
                  = (if (truthy data && truthy_opt (member "payment_id" data))%bool
                     then Some (pgText (nullable (member "payment_id" data)))
                     else external_payment_id before)
             else after = before)
          (payments w) (payments (snd outcome)).
Proof.
  intros G N R outcome. subst outcome.
  rewrite (processPayment_try_success paymentData data w G N R). simpl.
  split; [reflexivity|].
  apply Forall2_map_right. intros p. unfold update_row.
  destruct (payment_link_id p =? pd_paymentLinkId paymentData)%string; [|reflexivity].
  pose proof (updated_row_fields (clock w) "processing" data p) as F. cbv zeta in F.
  destruct F as (_ & _ & F3 & F4 & _ & F6 & F7 & _).
  split; [exact F3|]. split; [destruct data; try contradiction; exact F4|].
  split; [exact F6|].
  rewrite F7.
  destruct (truthy data && truthy_opt (member "payment_id" data))%bool eqn:E; [|reflexivity].
  apply andb_true_iff in E. destruct E as [_ E].
  destruct (member "payment_id" data) as [[| | | | | |]|]; simpl in E |- *;
    try reflexivity; discriminate E.
Qed.

(** X8. The transaction id that [processPayment] returns is not the one
    the reconciler can look up: on a store where no payment has an
    [external_payment_id] yet, after a successful [processPayment] whose
    gateway response carries [tranid] (and no [payment_id]), a webhook
    that identifies itself by that same transaction id alone finds no
    payment. *)
Theorem X8_processed_payment_not_found_by_transaction_id
    (paymentData : PaymentData) (data transactionId webhookData : value)
    (e : Extracted) (w w2 : World) :
  (forall p, In p (payments w) -> external_payment_id p = None) ->
  gateway w (paymentPayload paymentData) = Ok data ->
  member "tranid" data = Some transactionId ->
  truthy transactionId = true ->
  member "payment_id" data = None ->
  rejects w (UpdatePayments (buildUpdateData (clock w) "processing" data)
               (pd_paymentLinkId paymentData)) = None ->
  payments w2 = payments (snd (processPayment paymentData w)) ->
  healthy w2 ->
  extract webhookData = Ok e ->
  ex_transactionId e = Some transactionId ->
  ex_phoneNumber e = None ->
  pr_paymentId_of (fst (processPayment paymentData w)) = Some transactionId /\
  fst (handleFastlipaWebhook webhookData w2) = Ok (noMatchResult e) /\
  payments (snd (handleFastlipaWebhook webhookData w2)) = payments w2.
Proof.
  intros Hnone G Ht Htruthy Hp R Hw2 Hh He Htid Hphone.
  assert (N : data <> VNull) by (intros ->; discriminate Ht).
  rewrite (processPayment_try_success paymentData data w G N R) in Hw2 |- *.
  simpl in Hw2 |- *. rewrite Ht. simpl. rewrite Htruthy.
  split; [reflexivity|].
  assert (U : unmatched w2 e).
  { split.
    - intros tid p _ Hin. rewrite Hw2 in Hin. apply in_map_iff in Hin.
      destruct Hin as [q [<- Hq]]. unfold update_row.
      destruct (payment_link_id q =? pd_paymentLinkId paymentData)%string.
      + pose proof (updated_row_fields (clock w) "processing" data q) as F. cbv zeta in F.
        destruct F as (_ & _ & _ & _ & _ & _ & F7 & _). rewrite F7, Hp.
        rewrite andb_false_r. rewrite (Hnone q Hq). discriminate.
      + rewrite (Hnone q Hq). discriminate.
    - intros ph p Hph. rewrite Hphone in Hph. discriminate Hph. }
  rewrite handleFastlipaWebhook_cases, He, (findPayment_healthy e w2 Hh),
    (unmatched_lookupPayment w2 e U). simpl.
  split; [reflexivity|apply after_log_payments].
Qed.

Lemma updatePaymentStatus_logs (paymentLinkId st : string) (blob : value) (w : World) :
  webhook_logs (snd (updatePaymentStatus paymentLinkId st blob w)) = webhook_logs w.
Proof. rewrite updatePaymentStatus_eq. destruct (rejects w _); reflexivity. Qed.

Lemma callbackStatusOf_range (lowered : option string) :
  In (callbackStatusOf lowered) ["completed"; "failed"; "cancelled"; "processing"].
Proof.
  unfold callbackStatusOf. destruct lowered as [s|]; [|simpl; auto].
  destruct ((s =? "success") || (s =? "completed"))%string%bool; [simpl; auto|].
  destruct (s =? "failed")%string; [simpl; auto|].
  destruct (s =? "cancelled")%string; simpl; auto.
Qed.

(** X9. The status table of the legacy callback and the one of the webhook
    reconciler give the same internal status exactly on [success],
    [completed], [failed], [pending], [processing] and [initiated]; on
    every other lower-cased word they differ ([cancelled] stays
    [cancelled] in the callback and is [failed] in the reconciler; an
    unknown word is [processing] in the callback and [pending] in the
    reconciler). *)
Theorem X9_callback_and_webhook_tables (s : string) :
  callbackStatusOf (Some s) = internalStatusOf s <->
  In s ["success"; "completed"; "failed"; "pending"; "processing"; "initiated"].
Proof.
  split.
  - unfold callbackStatusOf, internalStatusOf.
    repeat match goal with
           | |- context [(s =? ?word)%string] =>
               destruct (String.eqb_spec s word) as [->|?]; simpl;
               [try (intros _; simpl; tauto); try discriminate|]
           end.
    discriminate.
  - simpl. intros [<-|[<-|[<-|[<-|[<-|[<-|[]]]]]]]; reflexivity.
Qed.

(** X10. The legacy callback reports success although nothing was
    updated: with a status that is a string (or missing), a payment
    reference that is missing, [null] or the link id of no payment, and a
    store that accepts the UPDATE, [handlePaymentCallback] returns
    [{success: true}] and the store is exactly as before. *)
Theorem X10_callback_success_without_update (data : value) (lowered : option string)
    (w : World) :
  data <> VNull ->
  optionalToLowerCase (member "status" data) = Ok lowered ->
  let updateData :=
    buildUpdateData (clock w) (callbackStatusOf lowered)
      (callbackBlob data (member "paymentId" data)) in
  match member "paymentReference" data with
  | None | Some VNull => refuses (UpdatePaymentsNoLink updateData) = None
  | Some v =>
      rejects w (UpdatePayments updateData (pgText v)) = None /\
      (forall p, In p (payments w) -> payment_link_id p <> pgText v)
  end ->
  handlePaymentCallback (Some data) w = (Ok (VObj [("success", VBool true)]), w).
Proof.
  intros N L updateData H. subst updateData.
  rewrite handlePaymentCallback_cases.
  assert (U : updatePaymentStatusOf (member "paymentReference" data)
                (callbackStatusOf lowered) (callbackBlob data (member "paymentId" data)) w
              = (Ok None, w)).
  { pose proof (updatePaymentStatusOf_cases (member "paymentReference" data)
                  (callbackStatusOf lowered)
                  (callbackBlob data (member "paymentId" data)) w) as C.
    destruct (member "paymentReference" data) as [[| | | | | |]|];
      rewrite C; try (rewrite H; reflexivity);
      destruct H as [R Hno];
      rewrite updatePaymentStatus_eq, R;
      destruct (update_row_other_link (clock w)
                  (buildUpdateData (clock w) (callbackStatusOf lowered)
                     (callbackBlob data (member "paymentId" data)))
                  _ (payments w) Hno) as [M F];
      cbv zeta; rewrite F, M, set_payments_same; reflexivity. }
  destruct data; try contradiction; rewrite L, U; reflexivity.
Qed.

(** X11. With a payment reference and a store that accepts the UPDATE, the
    legacy callback gives every payment with that link id the status of
    its own table (one of [completed], [failed], [cancelled],
    [processing], never [pending]), the callback as blob, and [paid_at]
    only for [completed]; other rows are untouched and the result is
    [{success: true}]. *)
Theorem X11_callback_update (data v : value) (lowered : option string) (w : World) :
  data <> VNull ->
  optionalToLowerCase (member "status" data) = Ok lowered ->
  member "paymentReference" data = Some v ->
  v <> VNull ->
  let newStatus := callbackStatusOf lowered in
  let blob := callbackBlob data (member "paymentId" data) in
  rejects w (UpdatePayments (buildUpdateData (clock w) newStatus blob) (pgText v)) = None ->
  let outcome := handlePaymentCallback (Some data) w in
  fst outcome = Ok (VObj [("success", VBool true)]) /\
  In newStatus ["completed"; "failed"; "cancelled"; "processing"] /\
  Forall2 (fun before after =>
             if (payment_link_id before =? pgText v)%string
             then status after = newStatus /\
                  fastlipa_response after = Some blob /\
                  paid_at after
                  = (if (newStatus =? "completed")%string then Some (clock w)
                     else paid_at before) /\
                  external_payment_id after = external_payment_id before
             else after = before)
          (payments w) (payments (snd outcome)).
Proof.
  intros N L R Nv newStatus blob Hacc outcome. subst outcome.
  rewrite handlePaymentCallback_cases.
  assert (U : updatePaymentStatusOf (member "paymentReference" data) newStatus blob w
              = updatePaymentStatus (pgText v) newStatus blob w).
  { pose proof (updatePaymentStatusOf_cases (member "paymentReference" data)
                  newStatus blob w) as C.
    rewrite R in C |- *. destruct v; try contradiction; exact C. }
  assert (K : (match optionalToLowerCase (member "status" data) with
               | Throw error => (Throw error, w)
               | Ok lowered0 =>
                   match updatePaymentStatusOf (member "paymentReference" data)
                           (callbackStatusOf lowered0)
                           (callbackBlob data (member "paymentId" data)) w with
                   | (Ok _, w1) => (Ok (VObj [("success", VBool true)]), w1)
                   | (Throw error, w1) => (Throw error, w1)
                   end
               end)
              = (Ok (VObj [("success", VBool true)]),
                 set_payments
                   (map (update_row (clock w) (buildUpdateData (clock w) newStatus blob)
                           (pgText v)) (payments w)) w)).
  { rewrite L. fold newStatus blob. rewrite U, updatePaymentStatus_eq, Hacc. reflexivity. }
  assert (G : (match (Some data : option value) with
               | None => (Throw (TypeError "Cannot destructure property 'paymentReference' of 'callbackData' as it is undefined."), w)
               | Some VNull => (Throw (TypeError "Cannot destructure property 'paymentReference' of 'callbackData' as it is null."), w)
               | Some d =>
                   match optionalToLowerCase (member "status" d) with
                   | Throw error => (Throw error, w)
                   | Ok lowered0 =>
                       match updatePaymentStatusOf (member "paymentReference" d)
                               (callbackStatusOf lowered0)
                               (callbackBlob d (member "paymentId" d)) w with
                       | (Ok _, w1) => (Ok (VObj [("success", VBool true)]), w1)
                       | (Throw error, w1) => (Throw error, w1)
                       end
                   end
               end)
              = (Ok (VObj [("success", VBool true)]),
                 set_payments
                   (map (update_row (clock w) (buildUpdateData (clock w) newStatus blob)
                           (pgText v)) (payments w)) w)).
  { destruct data; try contradiction; exact K. }
  rewrite G. simpl.
  split; [reflexivity|]. split; [apply callbackStatusOf_range|].
  apply Forall2_map_right. intros p. unfold update_row.
  destruct (payment_link_id p =? pgText v)%string; [|reflexivity].
  pose proof (updated_row_fields (clock w) newStatus blob p) as F. cbv zeta in F.
  destruct F as (_ & _ & F3 & F4 & _ & F6 & F7 & _).
  split; [exact F3|]. split; [exact F4|]. split; [exact F6|].
  rewrite F7. unfold blob. rewrite callbackBlob_has_no_payment_id. reflexivity.
Qed.

(** X12. A callback whose [status] is neither a string nor missing (a
    number, also zero, a boolean, an array, an object) makes
    [status?.toLowerCase()] throw: no statement is sent, the store is
    untouched and the callback route answers 500. *)
Theorem X12_callback_non_string_status (data st : value) (w : World) :
  data <> VNull ->
  member "status" data = Some st ->
  st <> VNull ->
  (forall s, st <> VStr s) ->
  exists error,
    handlePaymentCallback (Some data) w = (Throw error, w) /\
    callbackRoute (Some data) w
    = (Ok (mkResponse 500
             (VObj [("error", VStr "Callback processing failed");
                    ("details", VStr (message error))])), w).
Proof.
  intros N S Nn Ns.
  exists (TypeError "status?.toLowerCase is not a function").
  assert (L : optionalToLowerCase (member "status" data)
              = Throw (TypeError "status?.toLowerCase is not a function")).
  { rewrite S. destruct st; try reflexivity; [contradiction|exfalso; exact (Ns s eq_refl)]. }
  assert (H : handlePaymentCallback (Some data) w
              = (Throw (TypeError "status?.toLowerCase is not a function"), w)).
  { rewrite handlePaymentCallback_cases.
    destruct data; try contradiction; rewrite L; reflexivity. }
  split; [exact H|].
  unfold callbackRoute, try_catch, bind, ret. rewrite H. reflexivity.
Qed.

(** X13. The legacy callback leaves no audit row: whatever the body, the
    callback route answers 200 or 500 and [webhook_logs] is as before. *)
Theorem X13_callback_leaves_no_audit_row (body : option value) (w : World) :
  let outcome := callbackRoute body w in
  webhook_logs (snd outcome) = webhook_logs w /\
  exists response,
    fst outcome = Ok response /\ (res_status response = 200 \/ res_status response = 500).
Proof.
  intros outcome. subst outcome.
  assert (L : webhook_logs (snd (handlePaymentCallback body w)) = webhook_logs w).
  { destruct (handlePaymentCallback_world body w) as [K|[v [lowered [data [_ [_ K]]]]]];
      rewrite K; [reflexivity|apply updatePaymentStatus_logs]. }
  unfold callbackRoute, try_catch, bind, ret.
  destruct (handlePaymentCallback body w) as [[result|error] w1]; simpl in L |- *;
    (split; [exact L|]); eexists; split; try reflexivity; simpl; auto.
Qed.

(** X14. [getPaymentByLinkId] never changes the store; when the SELECT is
    accepted it returns a stored payment with exactly the requested link
    id, or [null] exactly when no payment has it; when the SELECT is
    refused it throws [Failed to fetch payment: <message>]. *)
Theorem X14_getPaymentByLinkId (paymentLinkId : string) (w : World) :
  let outcome := getPaymentByLinkId paymentLinkId w in
  snd outcome = w /\
  match refuses (SelectByLinkId paymentLinkId) with
  | Some msg => fst outcome = Throw (Error ("Failed to fetch payment: " ++ msg))
  | None =>
      match fst outcome with
      | Ok (Some payment) =>
          In payment (payments w) /\ payment_link_id payment = paymentLinkId
      | Ok None => forall p, In p (payments w) -> payment_link_id p <> paymentLinkId
      | Throw _ => False
      end
  end.
Proof.
  intros outcome. subst outcome. unfold getPaymentByLinkId, try_catch, throw.
  destruct (refuses (SelectByLinkId paymentLinkId)); simpl; [auto|].
  split; [reflexivity|].
  destruct (hd_error _) as [payment|] eqn:E.
  - apply hd_error_filter_In in E. destruct E as [Hin Hl].
    apply String.eqb_eq in Hl. auto.
  - intros p Hp Hl.
    assert (Hf : In p (filter (fun q => (payment_link_id q =? paymentLinkId)%string)
                         (payments w))).
    { apply filter_In. split; [exact Hp|]. apply String.eqb_eq. exact Hl. }
    destruct (filter _ (payments w)); [exact Hf|discriminate E].
Qed.

(** X15. Update, then look up: after an accepted [updatePaymentStatus] on
    the link id of a stored payment, [getPaymentByLinkId] with that link
    id returns a payment with the new status, the link id, and the time of
    the update as [updated_at]. *)
Theorem X15_lookup_after_update (paymentLinkId st : string) (blob : value)
    (stored : Payment) (w : World) :
  In stored (payments w) ->
  payment_link_id stored = paymentLinkId ->
  rejects w (UpdatePayments (buildUpdateData (clock w) st blob) paymentLinkId) = None ->
  refuses (SelectByLinkId paymentLinkId) = None ->
  exists payment,
    fst (getPaymentByLinkId paymentLinkId
           (snd (updatePaymentStatus paymentLinkId st blob w))) = Ok (Some payment) /\
    payment_link_id payment = paymentLinkId /\
    status payment = st /\
    updated_at payment = clock w.
Proof.
  intros Hin Hl R S.
  rewrite updatePaymentStatus_eq, R. simpl.
  unfold getPaymentByLinkId, try_catch. rewrite S. simpl.
  set (upd := update_row (clock w) (buildUpdateData (clock w) st blob) paymentLinkId).
  assert (Hf : In (upd stored)
                 (filter (fun p => (payment_link_id p =? paymentLinkId)%string)
                         (map upd (payments w)))).
  { apply filter_In. split; [apply in_map; exact Hin|].
    apply String.eqb_eq.
    destruct (update_row_identity (clock w) (buildUpdateData (clock w) st blob)
                paymentLinkId stored) as (_ & L & _).
    fold upd in L. congruence. }
  destruct (filter _ (map upd (payments w))) as [|payment rest] eqn:E; [destruct Hf|].
  exists payment. simpl. split; [reflexivity|].
  assert (Hp : In payment (filter (fun p => (payment_link_id p =? paymentLinkId)%string)
                             (map upd (payments w))))
    by (rewrite E; left; reflexivity).
  apply filter_In in Hp. destruct Hp as [Hm Hlink].
  apply String.eqb_eq in Hlink. apply in_map_iff in Hm. destruct Hm as [q [<- Hq]].
  split; [exact Hlink|].
  destruct (update_row_identity (clock w) (buildUpdateData (clock w) st blob)
              paymentLinkId q) as (_ & L & _).
  fold upd in L.
  assert (Lq : (payment_link_id q =? paymentLinkId)%string = true)
    by (apply String.eqb_eq; congruence).
  unfold upd, update_row. rewrite Lq.
  pose proof (updated_row_fields (clock w) st blob q) as F. cbv zeta in F.
  destruct F as (_ & _ & F3 & _ & F5 & _). auto.
Qed.

Lemma getPaymentStats_eq (w : World) :
  getPaymentStats w
  = match refuses SelectStats with
    | Some msg => (Throw (Error ("Failed to fetch payment statistics: " ++ msg)), w)
    | None => (Ok (payment_stats (payments w)), w)
    end.
Proof. unfold getPaymentStats, try_catch, throw. destruct (refuses SelectStats); reflexivity. Qed.

Lemma status_buckets (ps : list Payment) :
  count_status "completed" ps + count_status "pending" ps + count_status "failed" ps
  <= Z.of_nat (length ps) /\
  (count_status "completed" ps + count_status "pending" ps + count_status "failed" ps
   = Z.of_nat (length ps) <->
   forall p, In p ps -> In (status p) ["completed"; "pending"; "failed"]).
Proof.
  unfold count_status.
  induction ps as [|x ps [IHle IHeq]]; simpl filter; simpl length.
  - split; [lia|]. split; [intros _ p []|reflexivity].
  - assert (T : forall P : Prop,
              (forall p, In p (x :: ps) -> In (status p) ["completed"; "pending"; "failed"])
              <-> (In (status x) ["completed"; "pending"; "failed"] /\
                   forall p, In p ps -> In (status p) ["completed"; "pending"; "failed"])).
    { intros _. split.
      - intros H. split; [apply H; left; reflexivity|intros p Hp; apply H; right; exact Hp].
      - intros [H1 H2] p [<-|Hp]; auto. }
    rewrite (T True). clear T. rewrite <- IHeq.
    destruct (String.eqb_spec (status x) "completed") as [E1|E1];
      destruct (String.eqb_spec (status x) "pending") as [E2|E2];
      destruct (String.eqb_spec (status x) "failed") as [E3|E3];
      try (exfalso; congruence); cbn [length].
    + split; [lia|]. split; [intros H; split; [rewrite E1; simpl; auto|lia]|intros [_ H]; lia].
    + split; [lia|]. split; [intros H; split; [rewrite E2; simpl; auto|lia]|intros [_ H]; lia].
    + split; [lia|]. split; [intros H; split; [rewrite E3; simpl; auto|lia]|intros [_ H]; lia].
    + split; [lia|]. split; [intros H; lia|].
      intros [H _]. exfalso. simpl in H.
      destruct H as [H|[H|[H|[]]]]; congruence.
Qed.

(** X16. The statistics count every payment in [total_payments] but only
    the [completed], [pending] and [failed] ones in a bucket: the three
    buckets add up to at most the total, and to the total exactly when no
    payment is in another status ([processing], [cancelled]); the sum of
    amounts is NULL exactly on an empty table; reading the statistics
    changes nothing. *)
Theorem X16_stats_buckets (w : World) (stats : PaymentStats) :
  fst (getPaymentStats w) = Ok stats ->
  snd (getPaymentStats w) = w /\
  total_payments stats = Z.of_nat (length (payments w)) /\
  completed_payments stats + pending_payments stats + failed_payments stats
  <= total_payments stats /\
  (completed_payments stats + pending_payments stats + failed_payments stats
   = total_payments stats <->
   forall p, In p (payments w) -> In (status p) ["completed"; "pending"; "failed"]) /\
  (total_amount stats = None <-> payments w = []).
Proof.
  rewrite getPaymentStats_eq. destruct (refuses SelectStats); [discriminate|].
  simpl. intros H. injection H as <-. unfold payment_stats. simpl.
  pose proof (status_buckets (payments w)) as [Hle Heq].
  split; [reflexivity|]. split; [reflexivity|]. split; [exact Hle|]. split.
  - exact Heq.
  - destruct (payments w); split; intros H; try reflexivity; discriminate H.
Qed.

Lemma sum_from_shift (ps : list Payment) (a : Q) :
  Qeq (fold_left (fun acc p =>
                    Qplus acc (if (status p =? "completed")%string then amount p
                               else Qmake 0 1)) ps a)
      (Qplus a (sum_completed ps)).
Proof.
  unfold sum_completed. revert a.
  induction ps as [|x ps IH]; intros a; simpl.
  - rewrite Qplus_0_r. reflexivity.
  - rewrite IH. rewrite (IH (Qplus (Qmake 0 1) _)).
    rewrite Qplus_0_l. rewrite Qplus_assoc. reflexivity.
Qed.

Lemma sum_completed_cons (x : Payment) (ps : list Payment) :
  Qeq (sum_completed (x :: ps))
      (Qplus (if (status x =? "completed")%string then amount x else Qmake 0 1)
             (sum_completed ps)).
Proof.
  unfold sum_completed at 1. simpl. rewrite sum_from_shift, Qplus_0_l. reflexivity.
Qed.

(** Completing the one payment of a link id, as seen by the aggregates. *)
Lemma completion_counts (t : Z) (blob : value) (payment : Payment) (ps : list Payment) :
  let upd := update_row t (buildUpdateData t "completed" blob) (payment_link_id payment) in
  NoDup (map payment_link_id ps) ->
  In payment ps ->
  status payment <> "completed" ->
  length (filter (fun p => (status p =? "completed")%string) (map upd ps))
  = S (length (filter (fun p => (status p =? "completed")%string) ps)) /\
  Qeq (sum_completed (map upd ps)) (Qplus (sum_completed ps) (amount payment)).
Proof.
  intros upd Hnd Hin Hs.
  assert (Hupd : forall q, payment_link_id q = payment_link_id payment ->
                   status (upd q) = "completed" /\ amount (upd q) = amount q).
  { intros q Hq. unfold upd. rewrite <- Hq, update_row_same_link.
    pose proof (updated_row_fields t "completed" blob q) as F. cbv zeta in F.
    destruct F as (_ & _ & F3 & _).
    destruct (update_row_identity t (buildUpdateData t "completed" blob)
                (payment_link_id q) q) as (_ & _ & A & _).
    rewrite update_row_same_link in A. auto. }
  induction ps as [|x ps IH]; [destruct Hin|].
  simpl in Hnd. inversion Hnd as [|? ? Hnotin Hnd']; subst.
  destruct (String.eqb_spec (payment_link_id x) (payment_link_id payment)) as [E|E].
  - assert (x = payment) as ->.
    { destruct Hin as [->|Hin]; [reflexivity|].
      exfalso. apply Hnotin. rewrite E. apply in_map. exact Hin. }
    assert (Hrest : map upd ps = ps).
    { apply (update_row_other_link t (buildUpdateData t "completed" blob)
               (payment_link_id payment) ps).
      intros p Hp Hl. apply Hnotin. rewrite <- Hl. apply in_map. exact Hp. }
    destruct (Hupd payment eq_refl) as [U1 U2].
    simpl map. rewrite Hrest. split.
    + simpl. rewrite U1. simpl.
      apply String.eqb_neq in Hs. rewrite Hs. reflexivity.
    + rewrite !sum_completed_cons, U1, U2. simpl.
      apply String.eqb_neq in Hs. rewrite Hs.
      rewrite Qplus_0_l. apply Qplus_comm.
  - assert (Hx : upd x = x).
    { unfold upd, update_row. apply String.eqb_neq in E. rewrite E. reflexivity. }
    assert (Hin' : In payment ps).
    { destruct Hin as [->|Hin]; [contradiction E; reflexivity|exact Hin]. }
    destruct (IH Hnd' Hin') as [IH1 IH2].
    simpl map. rewrite Hx. split.
    + simpl. destruct (status x =? "completed")%string; simpl; rewrite IH1; reflexivity.
    + rewrite !sum_completed_cons, IH2. rewrite Qplus_assoc. reflexivity.
Qed.

(** X17. On a table with distinct link ids, a delivery that moves its
    payment into [completed] raises [completed_payments] by one and
    [total_amount] by the payment's amount, and leaves [total_payments] as
    it was. *)
Theorem X17_stats_after_completion (webhookData : value) (e : Extracted)
    (payment : Payment) (w : World) (before : PaymentStats) :
  extract webhookData = Ok e ->
  healthy w ->
  lookupPayment w e = Some payment ->
  internalStatusOf (ex_status e) = "completed" ->
  status payment <> "completed" ->
  NoDup (map payment_link_id (payments w)) ->
  fst (getPaymentStats w) = Ok before ->
  exists after,
    fst (getPaymentStats (snd (handleFastlipaWebhook webhookData w))) = Ok after /\
    total_payments after = total_payments before /\
    completed_payments after = completed_payments before + 1 /\
    match total_amount before, total_amount after with
    | Some a, Some b => Qeq b (Qplus a (amount payment))
    | _, _ => False
    end.
Proof.
  intros He Hw Hl Hi Hs Hnd Hb.
  rewrite getPaymentStats_eq in Hb |- *.
  destruct (refuses SelectStats); [discriminate Hb|].
  simpl in Hb. injection Hb as <-.
  eexists. split; [reflexivity|].
  rewrite handleFastlipaWebhook_cases, He, (findPayment_healthy e w Hw), Hl. simpl.
  unfold reconcilerUpdate. rewrite Hi. apply String.eqb_neq in Hs. rewrite Hs.
  rewrite (Hw (UpdatePayments _ _)). simpl.
  rewrite after_log_payments. simpl.
  apply String.eqb_neq in Hs.
  destruct (completion_counts (clock w) (webhookBlob webhookData e (clock w)) payment
              (payments w) Hnd (lookupPayment_In w e payment Hl) Hs) as [C1 C2].
  cbv zeta in C1, C2.
  unfold count_status. rewrite length_map, C1.
  split; [reflexivity|]. split; [lia|].
  pose proof (lookupPayment_In w e payment Hl) as Hin.
  destruct (payments w) as [|x ps] eqn:P; [destruct Hin|].
  simpl map. cbv iota. exact C2.
Qed.

Lemma getPaymentByLinkId_eq (paymentLinkId : string) (w : World) :
  getPaymentByLinkId paymentLinkId w
  = match refuses (SelectByLinkId paymentLinkId) with
    | Some msg => (Throw (Error ("Failed to fetch payment: " ++ msg)), w)
    | None =>
        (Ok (hd_error (filter (fun p => (payment_link_id p =? paymentLinkId)%string)
                              (payments w))), w)
    end.
Proof.
  unfold getPaymentByLinkId, try_catch, throw.
  destruct (refuses (SelectByLinkId paymentLinkId)); reflexivity.
Qed.

(** The process route, path by path. *)
Lemma processRoute_cases (body : ProcessBody) (w : World) :
  processRoute body w
  = if ((body_paymentLinkId body =? EmptyString) || (body_phoneNumber body =? EmptyString)
        || (body_customerName body =? EmptyString))%string%bool
    then (Ok (mkResponse 400
                (VObj [("error", VStr "Payment link ID, phone number, and customer name are required");
                       ("code", VStr "VALIDATION_FAIL")])), w)
    else
      match getPaymentByLinkId (body_paymentLinkId body) w with
      | (Throw error, w1) =>
          (Ok (mkResponse 500
                 (VObj [("error", VStr "Payment processing failed");
                        ("details", VStr (message error))])), w1)
      | (Ok None, w1) =>
          (Ok (mkResponse 404
                 (VObj [("error", VStr "Payment link not found");
                        ("code", VStr "PAYMENT_LINK_NOT_FOUND")])), w1)
      | (Ok (Some payment), w1) =>
          match processPayment
                  {| pd_paymentLinkId := body_paymentLinkId body;
                     pd_amount := amount payment;
                     pd_currency := currency payment;
                     pd_phoneNumber := body_phoneNumber body;
                     pd_description := description payment;
                     pd_customerName := body_customerName body |} w1 with
          | (Ok result, w2) => (Ok (mkResponse 200 (processResultJson result)), w2)
          | (Throw error, w2) =>
              (Ok (mkResponse 500
                     (VObj [("error", VStr "Payment processing failed");
                            ("details", VStr (message error))])), w2)
          end
      end.
Proof.
  unfold processRoute, try_catch.
  destruct ((body_paymentLinkId body =? EmptyString) || (body_phoneNumber body =? EmptyString)
            || (body_customerName body =? EmptyString))%string%bool; [reflexivity|].
  unfold bind at 1.
  destruct (getPaymentByLinkId (body_paymentLinkId body) w) as [[[payment|]|error] w1];
    try reflexivity.
  unfold bind, ret.
  destruct (processPayment _ w1) as [[result|error] w2]; reflexivity.
Qed.

Lemma phoneNumberPattern_local (s : string) :
  phoneNumberPattern s = true -> localPhoneNumber s = s.
Proof.
  unfold phoneNumberPattern, localPhoneNumber, startsWith.
  destruct s as [|c rest]; [discriminate|].
  intros H. apply andb_true_iff in H. destruct H as [H _].
  apply andb_true_iff in H. destruct H as [H _].
  apply Ascii.eqb_eq in H. subst c. reflexivity.
Qed.

(** X18. A phone number that passes the pattern of the validation
    middleware ([0] and nine digits) never starts with [255]: whatever
    the process route sends to the gateway carries the number as it was
    typed, and the route sends at most one request. *)
Theorem X18_validated_phone_is_sent_unchanged (body : ProcessBody) (w : World) :
  phoneNumberPattern (body_phoneNumber body) = true ->
  exists requests,
    sent (snd (processRoute body w)) = (sent w ++ requests)%list /\
    (length requests <= 1)%nat /\
    forall request, In request requests -> req_number request = body_phoneNumber body.
Proof.
  intros H. rewrite processRoute_cases.
  assert (Z0 : exists requests,
             sent w = (sent w ++ requests)%list /\ (length requests <= 1)%nat /\
             forall request, In request requests ->
                             req_number request = body_phoneNumber body).
  { exists []. rewrite app_nil_r. split; [reflexivity|]. split; [simpl; lia|intros r []]. }
  destruct ((body_paymentLinkId body =? EmptyString) || (body_phoneNumber body =? EmptyString)
            || (body_customerName body =? EmptyString))%string%bool; [exact Z0|].
  rewrite getPaymentByLinkId_eq.
  destruct (refuses (SelectByLinkId (body_paymentLinkId body))); [exact Z0|].
  destruct (hd_error _) as [payment|]; [|exact Z0].
  set (pd := {| pd_paymentLinkId := body_paymentLinkId body;
                pd_amount := amount payment;
                pd_currency := currency payment;
                pd_phoneNumber := body_phoneNumber body;
                pd_description := description payment;
                pd_customerName := body_customerName body |}).
  pose proof (processPayment_sent pd w) as S.
  exists [paymentPayload pd].
  split.
  - destruct (processPayment pd w) as [[result|error] w2]; exact S.
  - split; [simpl; lia|].
    intros request [<-|[]]. simpl. apply phoneNumberPattern_local. exact H.
Qed.

Lemma joiString_true (rule : string -> bool) (v : option value) :
  joiString rule v = true ->
  exists s, v = Some (VStr s) /\ s <> EmptyString /\ rule s = true.
Proof.
  unfold joiString. destruct v as [[| | |s| | |]|]; try discriminate.
  intros H. apply andb_true_iff in H. destruct H as [H1 H2].
  exists s. split; [reflexivity|]. split; [|exact H2].
  apply String.eqb_neq. destruct (s =? EmptyString)%string; [discriminate H1|reflexivity].
Qed.

(** X19. The process route answers a body that fails
    [validatePaymentProcessing] with the middleware's 400
    [VALIDATION_FAIL], and a body that passes it but names a link id that
    no payment has with 404 [PAYMENT_LINK_NOT_FOUND] (when the lookup is
    accepted); in both cases the gateway is not contacted and the store is
    as before. *)
Theorem X19_processRoute_unknown_link (joi_uuid : string -> bool)
    (joi_length : string -> nat) (joi_details : value -> value)
    (body : value) (w : World) :
  let validate := validatePaymentProcessing joi_uuid joi_length joi_details in
  let processEndpoint := processEndpoint joi_uuid joi_length joi_details in
  (forall response,
      validate body = Respond response ->
      res_status response = 400 /\
      member "code" (res_body response) = Some (VStr "VALIDATION_FAIL") /\
      processEndpoint body w = (Ok response, w)) /\
  (validate body = Next ->
   refuses (SelectByLinkId (stringField "paymentLinkId" body)) = None ->
   (forall p, In p (payments w) ->
              payment_link_id p <> stringField "paymentLinkId" body) ->
   processEndpoint body w
   = (Ok (mkResponse 404
            (VObj [("error", VStr "Payment link not found");
                   ("code", VStr "PAYMENT_LINK_NOT_FOUND")])), w)).
Proof.
  intros validate endpoint. subst validate endpoint. split.
  - intros response H. unfold processEndpoint. rewrite H.
    unfold validatePaymentProcessing in H.
    destruct (paymentProcessingSchema _ _ body); [discriminate H|].
    injection H as <-. repeat split.
  - intros H R Hno. unfold processEndpoint. rewrite H.
    unfold validatePaymentProcessing in H.
    destruct (paymentProcessingSchema _ _ body) eqn:S; [|discriminate H].
    unfold paymentProcessingSchema in S.
    destruct body as [| | | | | |kvs]; try discriminate S.
    apply andb_true_iff in S. destruct S as [S S3].
    apply andb_true_iff in S. destruct S as [S S2].
    apply andb_true_iff in S. destruct S as [_ S1].
    apply joiString_true in S1, S2, S3.
    destruct S1 as [l [E1 [N1 _]]]. destruct S2 as [ph [E2 [N2 _]]].
    destruct S3 as [n [E3 [N3 _]]].
    rewrite processRoute_cases. unfold validatedBody, stringField in *. simpl in *.
    rewrite E1, E2, E3 in *.
    apply String.eqb_neq in N1, N2, N3. rewrite N1, N2, N3. simpl.
    rewrite getPaymentByLinkId_eq, R, filter_none; [reflexivity|].
    intros p Hp. apply String.eqb_neq. apply Hno. exact Hp.
Qed.

Lemma trimEnd_idempotent (s : string) : trimEnd (trimEnd s) = trimEnd s.
Proof.
  induction s as [|c r IH]; [reflexivity|]. simpl.
  destruct (trimEnd r) as [|d k] eqn:E.
  - destruct (is_white_space c) eqn:W; simpl; [reflexivity|]. rewrite W. reflexivity.
  - change (trimEnd (String c (String d k)))
      with (match trimEnd (String d k) with
            | EmptyString => if is_white_space c then EmptyString else String c EmptyString
            | kept => String c kept
            end).
    rewrite IH. reflexivity.
Qed.

Lemma trimEnd_keeps_head (c : ascii) (r : string) :
  is_white_space c = false -> exists k, trimEnd (String c r) = String c k.
Proof.
  intros W. simpl. destruct (trimEnd r) as [|d k].
  - rewrite W. eexists. reflexivity.
  - eexists. reflexivity.
Qed.

Lemma trimStart_head (s : string) :
  trimStart s = EmptyString \/
  exists c r, trimStart s = String c r /\ is_white_space c = false.
Proof.
  induction s as [|c r IH]; [left; reflexivity|]. simpl.
  destruct (is_white_space c) eqn:W; [exact IH|].
  right. exists c, r. auto.
Qed.

Lemma trim_idempotent (s : string) : trim (trim s) = trim s.
Proof.
  unfold trim.
  destruct (trimStart_head s) as [E|[c [r [E W]]]]; rewrite E; [reflexivity|].
  destruct (trimEnd_keeps_head c r W) as [k K].
  rewrite K. simpl trimStart. rewrite W. rewrite <- K. apply trimEnd_idempotent.
Qed.

(** X20. [authenticateApiKey] compares the trimmed header with the
    configured key as it is: when the configured key itself begins or ends
    with white space (a stray space or line break in the environment), no
    header at all is let through. *)
Theorem X20_padded_key_locks_out (env : option string) (providedApiKey : option string) :
  trim (API_KEY env) <> API_KEY env ->
  authenticateApiKey (API_KEY env) providedApiKey <> Next.
Proof.
  intros H. unfold authenticateApiKey.
  destruct providedApiKey as [[|c r]|]; try discriminate.
  destruct (String.eqb_spec (trim (String c r)) (API_KEY env)) as [E|E]; simpl;
    [|discriminate].
  exfalso. apply H. rewrite <- E. apply trim_idempotent.
Qed.

(** X21. The two middlewares disagree on padded headers: a header that is
    not the key but trims to it is let through by [authenticateApiKey] and
    answered 403 by [optionalAuth]; and with a key free of surrounding
    white space, whatever header [optionalAuth] lets through
    [authenticateApiKey] lets through too. *)
Theorem X21_trimmed_and_exact_comparison (key provided : string) :
  (trim provided = key -> provided <> key ->
   authenticateApiKey key (Some provided) = Next /\
   optionalAuth key (Some provided) = Respond invalidApiKey) /\
  (trim key = key -> provided <> EmptyString ->
   optionalAuth key (Some provided) = Next ->
   authenticateApiKey key (Some provided) = Next).
Proof.
  split.
  - intros Ht Hne.
    destruct provided as [|c r].
    + exfalso. apply Hne. rewrite <- Ht. reflexivity.
    + unfold authenticateApiKey, optionalAuth.
      apply String.eqb_eq in Ht. rewrite Ht.
      apply String.eqb_neq in Hne. rewrite Hne. auto.
  - intros Hk Hne Ho.
    destruct provided as [|c r]; [contradiction|].
    unfold authenticateApiKey, optionalAuth in *.
    destruct (String.eqb_spec (String c r) key) as [E|E]; [|discriminate Ho].
    rewrite E, Hk, String.eqb_refl. reflexivity.
Qed.

(** X22. What the reconciler matches is what it was told: on a store that
    answers, the payment [findPayment] returns is a stored payment that
    either carries the extracted transaction id as [external_payment_id],
    or carries the extracted phone number and was created within the last
    hour while no payment carries the transaction id. *)
Theorem X22_match_is_sound (e : Extracted) (payment : Payment) (w : World) :
  healthy w ->
  fst (findPayment e w) = Ok (Some payment) ->
  In payment (payments w) /\
  ((exists transactionId,
       ex_transactionId e = Some transactionId /\
       external_payment_id payment = Some (pgText transactionId)) \/
   (exists phoneNumber,
       ex_phoneNumber e = Some phoneNumber /\
       phone_number payment = Some (pgText phoneNumber) /\
       clock w - one_hour < created_at payment /\
       forall transactionId p,
         ex_transactionId e = Some transactionId -> In p (payments w) ->
         external_payment_id p <> Some (pgText transactionId))).
Proof.
  intros Hw H. rewrite (findPayment_healthy e w Hw) in H. simpl in H.
  injection H as H.
  split; [exact (lookupPayment_In w e payment H)|].
  unfold lookupPayment in H.
  destruct (ex_transactionId e) as [tid|].
  - destruct (hd_error (select_by_external_id tid (payments w))) as [q|] eqn:E.
    + left. exists tid. split; [reflexivity|].
      assert (q = payment) as -> by (destruct (ex_phoneNumber e); congruence).
      apply hd_error_filter_In in E. destruct E as [_ E].
      apply opt_string_eqb_true in E. exact E.
    + right. destruct (ex_phoneNumber e) as [ph|]; [|discriminate H].
      apply select_recent_by_phone_In in H. destruct H as [_ [Hp Ht]].
      exists ph. split; [reflexivity|]. split; [exact Hp|]. split; [exact Ht|].
      intros tid' p Htid Hin Hext. injection Htid as <-.
      unfold select_by_external_id in E.
      assert (Hf : In p (filter (fun p0 => opt_string_eqb (external_payment_id p0) (pgText tid))
                           (payments w))).
      { apply filter_In. split; [exact Hin|]. apply opt_string_eqb_true. exact Hext. }
      destruct (filter _ (payments w)); [exact Hf|discriminate E].
  - right. destruct (ex_phoneNumber e) as [ph|]; [|discriminate H].
    apply select_recent_by_phone_In in H. destruct H as [_ [Hp Ht]].
    exists ph. split; [reflexivity|]. split; [exact Hp|]. split; [exact Ht|].
    intros tid' p Htid. discriminate Htid.
Qed.

Lemma newest_max (ps : list Payment) (p : Payment) :
  newest ps = Some p ->
  In p ps /\ forall q, In q ps -> created_at q <= created_at p.
Proof.
  revert p. induction ps as [|x ps IH]; intros p H; simpl in H; [discriminate|].
  destruct (newest ps) as [m|] eqn:E.
  - destruct (IH m eq_refl) as [Hin Hmax].
    destruct (Z.ltb_spec (created_at x) (created_at m)) as [L|L]; injection H as <-.
    + split; [right; exact Hin|]. intros q [<-|Hq]; [lia|apply Hmax; exact Hq].
    + split; [left; reflexivity|].
      intros q [<-|Hq]; [lia|]. specialize (Hmax q Hq). lia.
  - injection H as <-. split; [left; reflexivity|].
    intros q [<-|Hq]; [lia|].
    destruct ps as [|y ps']; [destruct Hq|]. simpl in E.
    destruct (newest ps'); [destruct (created_at y <? created_at p)|]; discriminate E.
Qed.

Lemma newest_none (ps : list Payment) : newest ps = None -> ps = [].
Proof.
  destruct ps as [|x ps]; [reflexivity|]. simpl.
  destruct (newest ps) as [m|]; [destruct (created_at x <? created_at m)|]; discriminate.
Qed.

Lemma hd_error_none {A : Type} (l : list A) : hd_error l = None -> l = [].
Proof. destruct l; [reflexivity|discriminate]. Qed.

(** The same rows in another order and after an update of other columns:
    the lookup by external id returns the same payment. *)
Lemma select_by_external_id_relocated (g : Payment -> Payment) (tid : value)
    (ps qs : list Payment) :
  (forall p, external_payment_id (g p) = external_payment_id p) ->
  (forall p q, In p ps -> In q ps ->
               external_payment_id p = Some (pgText tid) ->
               external_payment_id q = Some (pgText tid) -> p = q) ->
  (forall x, In x qs <-> In x (map g ps)) ->
  hd_error (select_by_external_id tid qs)
  = option_map g (hd_error (select_by_external_id tid ps)).
Proof.
  intros Hg Huniq Hperm. unfold select_by_external_id.
  set (f := fun p => opt_string_eqb (external_payment_id p) (pgText tid)).
  assert (Hf : forall p, f (g p) = f p) by (intros p; unfold f; rewrite Hg; reflexivity).
  destruct (hd_error (filter f ps)) as [p|] eqn:E; simpl.
  - apply hd_error_filter_In in E. destruct E as [Hp Fp].
    assert (Hgp : In (g p) (filter f qs)).
    { apply filter_In. split; [apply Hperm, in_map, Hp|]. rewrite Hf. exact Fp. }
    destruct (filter f qs) as [|c rest] eqn:Eq; [destruct Hgp|]. simpl.
    assert (Hc : In c (filter f qs)) by (rewrite Eq; left; reflexivity).
    apply filter_In in Hc. destruct Hc as [Hc Fc].
    apply Hperm, in_map_iff in Hc. destruct Hc as [q [<- Hq]].
    rewrite Hf in Fc. unfold f in Fp, Fc.
    apply opt_string_eqb_true in Fp, Fc.
    rewrite (Huniq p q Hp Hq Fp Fc). reflexivity.
  - apply hd_error_none in E. rewrite filter_none; [reflexivity|].
    intros c Hc. apply Hperm, in_map_iff in Hc. destruct Hc as [q [<- Hq]].
    rewrite Hf. destruct (f q) eqn:Fq; [|reflexivity].
    assert (K : In q (filter f ps)) by (apply filter_In; auto).
    rewrite E in K. destruct K.
Qed.

(** Likewise for the lookup by phone number. *)
Lemma select_recent_by_phone_relocated (g : Payment -> Payment) (t : Z) (ph : value)
    (ps qs : list Payment) :
  (forall p, phone_number (g p) = phone_number p) ->
  (forall p, created_at (g p) = created_at p) ->
  (forall p q, In p ps -> In q ps ->
               phone_number p = Some (pgText ph) ->
               phone_number q = Some (pgText ph) ->
               created_at p = created_at q -> p = q) ->
  (forall x, In x qs <-> In x (map g ps)) ->
  hd_error (select_recent_by_phone t ph qs)
  = option_map g (hd_error (select_recent_by_phone t ph ps)).
Proof.
  intros Hp Hc Huniq Hperm. unfold select_recent_by_phone.
  set (f := fun p => (opt_string_eqb (phone_number p) (pgText ph)
                      && (t - one_hour <? created_at p))%bool).
  assert (Hf : forall p, f (g p) = f p)
    by (intros p; unfold f; rewrite Hp, Hc; reflexivity).
  assert (Hphone : forall p, f p = true -> phone_number p = Some (pgText ph)).
  { intros p Fp. unfold f in Fp. apply andb_true_iff in Fp.
    apply opt_string_eqb_true. tauto. }
  destruct (newest (filter f ps)) as [p|] eqn:E; simpl.
  - apply newest_max in E. destruct E as [Hin Hmax].
    apply filter_In in Hin. destruct Hin as [Hin Fp].
    assert (Hgp : In (g p) (filter f qs)).
    { apply filter_In. split; [apply Hperm, in_map, Hin|]. rewrite Hf. exact Fp. }
    destruct (newest (filter f qs)) as [c|] eqn:Eq;
      [|apply newest_none in Eq; rewrite Eq in Hgp; destruct Hgp].
    simpl. apply newest_max in Eq. destruct Eq as [Hc' Hmax'].
    pose proof (Hmax' (g p) Hgp) as L1. rewrite Hc in L1.
    apply filter_In in Hc'. destruct Hc' as [Hcq Fc].
    apply Hperm, in_map_iff in Hcq. destruct Hcq as [q [<- Hq]].
    rewrite Hf in Fc. rewrite Hc in L1.
    assert (L2 : created_at q <= created_at p)
      by (apply Hmax, filter_In; auto).
    assert (Heq : created_at p = created_at q) by lia.
    rewrite (Huniq p q Hin Hq (Hphone p Fp) (Hphone q Fc) Heq). reflexivity.
  - apply newest_none in E.
    assert (Eq : filter f qs = []).
    { apply filter_none. intros c Hcq.
      apply Hperm, in_map_iff in Hcq. destruct Hcq as [q [<- Hq]].
      rewrite Hf. destruct (f q) eqn:Fq; [|reflexivity].
      assert (K : In q (filter f ps)) by (apply filter_In; auto).
      rewrite E in K. destruct K. }
    rewrite Eq. reflexivity.
Qed.

Lemma lookupPayment_relocated (g : Payment -> Payment) (e : Extracted) (w w' : World) :
  (forall p, external_payment_id (g p) = external_payment_id p) ->
  (forall p, phone_number (g p) = phone_number p) ->
  (forall p, created_at (g p) = created_at p) ->
  lookup_determined w e ->
  (forall x, In x (payments w') <-> In x (map g (payments w))) ->
  clock w' = clock w ->
  lookupPayment w' e = option_map g (lookupPayment w e).
Proof.
  intros He Hp Hc [U1 U2] Hperm Hcl. unfold lookupPayment. rewrite Hcl.
  assert (S2 : forall ph, ex_phoneNumber e = Some ph ->
             hd_error (select_recent_by_phone (clock w) ph (payments w'))
             = option_map g (hd_error (select_recent_by_phone (clock w) ph (payments w)))).
  { intros ph Hph. apply select_recent_by_phone_relocated; auto.
    intros p q. apply (U2 ph p q Hph). }
  destruct (ex_transactionId e) as [tid|] eqn:T.
  - rewrite (select_by_external_id_relocated g tid (payments w) (payments w') He
               (fun p q => U1 tid p q eq_refl) Hperm).
    destruct (hd_error (select_by_external_id tid (payments w))); simpl.
    + destruct (ex_phoneNumber e); reflexivity.
    + destruct (ex_phoneNumber e) as [ph|]; [apply S2; reflexivity|reflexivity].
  - destruct (ex_phoneNumber e) as [ph|]; [apply S2; reflexivity|reflexivity].
Qed.

(** X23. Re-delivery is idempotent on payments for every payload, not
    only for payments already in the final status: on a store that
    answers and where the lookups single out their payment (at most one
    payment carries the transaction id, no two payments with the phone
    number were created at the same time), a second delivery of the
    payload leaves the payments exactly as the first delivery left them,
    in whatever order the store returns the rows. *)
Theorem X23_redelivery_keeps_payments (webhookData : value) (e : Extracted) (w : World) :
  extract webhookData = Ok e ->
  healthy w ->
  lookup_determined w e ->
  let first := snd (handleFastlipaWebhook webhookData w) in
  forall again,
    Permutation (payments first) (payments again) ->
    clock again = clock w ->
    healthy again ->
    payments (snd (handleFastlipaWebhook webhookData again)) = payments again.
Proof.
  intros He Hw Hd first again Hperm Hcl Hagain.
  assert (Step :
            (lookupPayment again e = None \/
             exists q, lookupPayment again e = Some q /\
                       status q = internalStatusOf (ex_status e)) ->
            payments (snd (handleFastlipaWebhook webhookData again)) = payments again).
  { intros [L|[q [L S]]];
      rewrite handleFastlipaWebhook_cases, He, (findPayment_healthy e again Hagain), L; simpl.
    - apply after_log_payments.
    - rewrite S, String.eqb_refl. apply after_log_payments. }
  apply Step. clear Step.
  assert (Hin : forall ps, Permutation ps (payments again) ->
                           forall x, In x (payments again) <-> In x ps).
  { intros ps P x. split; intros H.
    - exact (Permutation_in x (Permutation_sym P) H).
    - exact (Permutation_in x P H). }
  assert (Same : Permutation (payments w) (payments again) ->
                 lookupPayment again e = lookupPayment w e).
  { intros P.
    rewrite (lookupPayment_relocated (fun x => x) e w again); auto.
    - destruct (lookupPayment w e); reflexivity.
    - rewrite map_id. apply Hin. exact P. }
  subst first. revert Hperm.
  rewrite handleFastlipaWebhook_cases, He, (findPayment_healthy e w Hw). simpl.
  destruct (lookupPayment w e) as [payment|] eqn:L; simpl.
  - destruct (String.eqb_spec (status payment) (internalStatusOf (ex_status e)))
      as [S|S]; simpl.
    + rewrite after_log_payments. intros P. right. exists payment.
      split; [|exact S]. rewrite (Same P). reflexivity.
    + rewrite (Hw (reconcilerUpdate webhookData e payment w)). simpl.
      rewrite after_log_payments. simpl. intros P. right.
      set (g := update_row (clock w)
                  (buildUpdateData (clock w) (internalStatusOf (ex_status e))
                     (webhookBlob webhookData e (clock w)))
                  (payment_link_id payment)) in *.
      assert (G : forall p,
                 external_payment_id (g p) = external_payment_id p /\
                 phone_number (g p) = phone_number p /\
                 created_at (g p) = created_at p).
      { intros p. unfold g, update_row.
        destruct (payment_link_id p =? payment_link_id payment)%string; [|auto].
        pose proof (updated_row_fields (clock w) (internalStatusOf (ex_status e))
                      (webhookBlob webhookData e (clock w)) p) as Q.
        cbv zeta in Q. destruct Q as (_ & _ & _ & _ & _ & _ & Q7 & Q8 & Q9). auto. }
      exists (g payment). split.
      * rewrite (lookupPayment_relocated g e w again).
        -- rewrite L. reflexivity.
        -- intros p. apply G.
        -- intros p. apply G.
        -- intros p. apply G.
        -- exact Hd.
        -- apply Hin. exact P.
        -- exact Hcl.
      * unfold g. rewrite update_row_same_link.
        pose proof (updated_row_fields (clock w) (internalStatusOf (ex_status e))
                      (webhookBlob webhookData e (clock w)) payment) as Q.
        cbv zeta in Q. destruct Q as (_ & _ & Q3 & _). exact Q3.
  - rewrite after_log_payments. intros P. left. rewrite (Same P). reflexivity.
Qed.

(** X24. [processPayment] asks the gateway every time it is called: two
    calls with the same data send the same request twice, whatever the
    gateway or the store answered the first time. *)
Theorem X24_processPayment_twice_sends_twice (paymentData : PaymentData) (w : World) :
  sent (snd (processPayment paymentData (snd (processPayment paymentData w))))
  = (sent w ++ [paymentPayload paymentData; paymentPayload paymentData])%list.
Proof.
  rewrite !processPayment_sent, <- app_assoc. reflexivity.
Qed.

End Service.

(* ===================================================================== *)
(** ** The claims on the sample store *)
(* ===================================================================== *)

Lemma sample_world_healthy : healthy sample_world.
Proof. intros stmt. reflexivity. Defined.

Lemma completed_world_healthy : healthy completed_world.
Proof. intros stmt. reflexivity. Defined.

Lemma stray_webhook_unmatched : unmatched sample_render sample_world stray_extracted.
Proof.
  split.
  - intros transactionId p _ [<-|[]]. discriminate.
  - intros phoneNumber p H [<-|[]]. injection H as <-. discriminate.
Defined.

Lemma C1_status_vocabulary_witness :
  extract sample_webhook = Ok sample_extracted /\
  healthy sample_world /\
  lookupPayment sample_render sample_world sample_extracted = Some sample_payment /\
  fst (handleFastlipaWebhook sample_render sample_webhook sample_world)
  = Ok (processedResult sample_payment "completed" sample_extracted) /\
  exists row,
    In row (payments (snd (handleFastlipaWebhook sample_render sample_webhook sample_world))) /\
    id row = id sample_payment /\ status row = "completed".
Proof.
  split; [reflexivity|].
  split; [exact sample_world_healthy|].
  split; [reflexivity|].
  exact (proj2 (proj2 (proj2 (C1_status_vocabulary sample_render)))
           sample_webhook sample_extracted sample_payment sample_world
           eq_refl sample_world_healthy eq_refl).
Defined.



Lemma C3_unmatched_webhook_witness :
  extract stray_webhook = Ok stray_extracted /\
  unmatched sample_render sample_world stray_extracted /\
  healthy sample_world /\
  payments (snd (handleFastlipaWebhook sample_render stray_webhook sample_world))
  = [sample_payment] /\
  fst (handleFastlipaWebhook sample_render stray_webhook sample_world)
  = Ok (VObj [("success", VBool false);
              ("message", VStr "No matching payment found");
              ("receivedData",
               VObj [("transactionId", VStr "pay_other999");
                     ("phoneNumber", VStr "0799999999");
                     ("status", VStr "failed")])]) /\
  webhook_logs (snd (handleFastlipaWebhook sample_render stray_webhook sample_world))
  = [mkWebhookLog None stray_webhook "no_matching_payment" None 1760000600000].
Proof.
  split; [reflexivity|].
  split; [exact stray_webhook_unmatched|].
  split; [exact sample_world_healthy|].
  destruct (C3_unmatched_webhook sample_render stray_webhook stray_extracted sample_world
              eq_refl stray_webhook_unmatched) as [Hp Hr].
  split; [exact Hp|]. exact (Hr sample_world_healthy).
Defined.

Lemma C4_idempotent_redelivery_witness :
  let completed := with_external_payment_id (Some "pay_test123")
                     (with_status "completed" sample_payment) in
  let first := handleFastlipaWebhook sample_render sample_webhook completed_world in
  let second := handleFastlipaWebhook sample_render sample_webhook (snd first) in
  extract sample_webhook = Ok sample_extracted /\
  healthy completed_world /\
  lookupPayment sample_render completed_world sample_extracted = Some completed /\
  status completed = internalStatusOf (ex_status sample_extracted) /\
  payments (snd first) = [completed] /\
  payments (snd second) = [completed] /\
  map log_status (webhook_logs (snd second)) = ["processed"; "processed"].
Proof.
  intros completed first second.
  split; [reflexivity|].
  split; [exact completed_world_healthy|].
  split; [reflexivity|].
  split; [reflexivity|].
  destruct (C4_idempotent_redelivery sample_render sample_webhook sample_extracted
              completed completed_world eq_refl completed_world_healthy eq_refl eq_refl)
    as [_ [Hp [_ Hsecond]]].
  split; [exact Hp|].
  destruct (Hsecond (snd first) completed eq_refl eq_refl
              (fun stmt => eq_refl) eq_refl eq_refl) as [_ [Hp2 Hl2]].
  split; [exact Hp2|].
  fold first in Hl2. fold second in Hl2. rewrite Hl2. reflexivity.
Defined.

Lemma C5_counterexample_unknown_link :
  (forall p, In p (payments sample_world) -> payment_link_id p <> "no-such-link") /\
  updatePaymentStatus sample_render "no-such-link" "failed" VNull sample_world
  = (Ok None, sample_world) /\
  ~ (exists error,
        fst (updatePaymentStatus sample_render "no-such-link" "failed" VNull sample_world)
        = Throw error).
Proof.
  split; [intros p [<-|[]]; discriminate|].
  split; [reflexivity|].
  intros [error H]. discriminate H.
Qed.

Lemma C5_update_of_unknown_link_witness :
  (forall p, In p (payments sample_world) -> payment_link_id p <> "no-such-link") /\
  updatePaymentStatus sample_render "no-such-link" "failed" VNull sample_world
  = (Ok None, sample_world).
Proof.
  assert (H : forall p, In p (payments sample_world) -> payment_link_id p <> "no-such-link")
    by (intros p [<-|[]]; discriminate).
  split; [exact H|].
  exact (C5_update_of_unknown_link sample_render "no-such-link" "failed" VNull sample_world H).
Defined.

Lemma C8_counterexample_malformed_response :
  let outcome := processPayment sample_render sample_paymentData malformed_world in
  gateway malformed_world (paymentPayload sample_paymentData) = Ok (VObj []) /\
  fst outcome
  = Ok {| pr_success := true;
          pr_paymentId := None;
          pr_status := VStr "pending";
          pr_instructions :=
            "Payment initiated successfully. Use the transaction ID to check status." |} /\
  map status (payments (snd outcome)) = ["processing"] /\
  map fastlipa_response (payments (snd outcome)) = [Some (VObj [])] /\
  ~ (exists error, fst outcome = Throw error) /\
  ~ (exists p, In p (payments (snd outcome)) /\ status p = "failed").
Proof.
  split; [reflexivity|]. split; [reflexivity|].
  split; [reflexivity|]. split; [reflexivity|].
  split.
  - intros [error H]. discriminate H.
  - intros [p [[<-|[]] H]]. discriminate H.
Qed.

Lemma C8_gateway_throw_marks_failed_witness :
  let outcome := processPayment sample_render sample_paymentData sample_world in
  let answered := processPayment sample_render sample_paymentData two_payment_world in
  (gateway sample_world (paymentPayload sample_paymentData) = Throw (Error "Network Error") /\
   fst outcome = Throw (Error "Payment processing failed: Network Error") /\
   map status (payments (snd outcome)) = ["failed"] /\
   map fastlipa_response (payments (snd outcome))
   = [Some (VObj [("error", VStr "Network Error")])]) /\
  (gateway two_payment_world (paymentPayload sample_paymentData)
   = Ok sample_gateway_response /\
   sample_gateway_response <> VNull /\
   is_throw (fst answered) = false /\
   map status (payments (snd answered)) = ["processing"; "pending"]).
Proof.
  intros outcome answered. split.
  - split; [reflexivity|].
    destruct (proj1 (C8_gateway_throw_marks_failed sample_render sample_paymentData
                       sample_world) (Error "Network Error") eq_refl) as [_ H].
    destruct (H eq_refl) as [Hr _].
    split; [exact Hr|].
    split; reflexivity.
  - assert (N : sample_gateway_response <> VNull) by discriminate.
    split; [reflexivity|]. split; [exact N|].
    destruct (proj2 (C8_gateway_throw_marks_failed sample_render sample_paymentData
                       two_payment_world) sample_gateway_response eq_refl N eq_refl)
      as [Hr _].
    split; [exact Hr|reflexivity].
Defined.

Lemma C9_paid_at_only_when_completed_witness :
  let link := payment_link_id sample_payment in
  let updateData := buildUpdateData (clock sample_world) "failed" VNull in
  rejects sample_world (UpdatePayments updateData link) = None /\
  Forall2 (fun before after =>
             if (payment_link_id before =? link)%string
             then updated_at after = clock sample_world /\ paid_at after = paid_at before
             else after = before)
          (payments sample_world)
          (payments (snd (updatePaymentStatus sample_render link "failed" VNull sample_world))).
Proof.
  intros link updateData.
  split; [reflexivity|].
  exact (proj2 (proj2 (C9_paid_at_only_when_completed sample_render link "failed"
                         VNull sample_world)) eq_refl).
Defined.

Lemma C10_falsy_values_fall_through_witness :
  extract fallback_webhook = Ok fallback_extracted /\
  ex_transactionId fallback_extracted = Some (VStr "T") /\
  ex_phoneNumber fallback_extracted = Some (VStr "0712345678") /\
  ex_status fallback_extracted = "paid".
Proof.
  split; [reflexivity|].
  destruct (proj1 (proj2 (C10_falsy_values_fall_through sample_render))
              fallback_webhook fallback_extracted eq_refl) as [Ht [Hp Hs]].
  split; [exact Ht|]. split; [exact Hp|]. exact Hs.
Defined.

(* ===================================================================== *)
(** ** The further properties on the sample store *)
(* ===================================================================== *)

Lemma two_payment_world_healthy : healthy two_payment_world.
Proof. intros stmt. reflexivity. Defined.

Lemma X1_reconciler_transition_witness :
  let outcome := handleFastlipaWebhook sample_render sample_webhook sample_world in
  extract sample_webhook = Ok sample_extracted /\
  healthy sample_world /\
  lookupPayment sample_render sample_world sample_extracted = Some sample_payment /\
  status sample_payment <> internalStatusOf (ex_status sample_extracted) /\
  map status (payments (snd outcome)) = ["completed"] /\
  map paid_at (payments (snd outcome)) = [Some (clock sample_world)] /\
  map log_status (webhook_logs (snd outcome)) = ["processed"].
Proof.
  intros outcome.
  assert (Hs : status sample_payment <> internalStatusOf (ex_status sample_extracted))
    by discriminate.
  split; [reflexivity|]. split; [exact sample_world_healthy|].
  split; [reflexivity|]. split; [exact Hs|].
  destruct (X1_reconciler_transition sample_render sample_webhook sample_extracted
              sample_payment sample_world eq_refl sample_world_healthy eq_refl Hs)
    as [_ [Hl _]].
  split; [reflexivity|]. split; [reflexivity|].
  fold outcome in Hl. rewrite Hl. reflexivity.
Defined.

Lemma X2_reconciler_throw_keeps_payments_witness :
  fst (handleFastlipaWebhook sample_render sample_webhook outage_world)
  = Throw (Error "Connection terminated unexpectedly") /\
  payments (snd (handleFastlipaWebhook sample_render sample_webhook outage_world))
  = [sample_payment].
Proof.
  split; [reflexivity|].
  exact (X2_reconciler_throw_keeps_payments sample_render sample_webhook outage_world
           (Error "Connection terminated unexpectedly") eq_refl).
Defined.

Lemma X4_webhookRoute_empty_body_witness :
  Object_keys_length (VObj []) = O /\
  fst (webhookRoute sample_render (Some (VObj [])) sample_world)
  = Ok (mkResponse 400
          (VObj [("success", VBool false); ("error", VStr "Empty webhook data");
                 ("message", VStr "No data received in webhook")])) /\
  webhook_logs (snd (webhookRoute sample_render (Some (VObj [])) sample_world)) = [].
Proof.
  split; [reflexivity|].
  rewrite (X4_webhookRoute_empty_body sample_render (Some (VObj [])) sample_world
             (or_intror eq_refl)).
  split; reflexivity.
Defined.

Lemma X5_webhookRoute_status_code_witness :
  truthy stray_webhook = true /\
  Object_keys_length stray_webhook <> O /\
  extract stray_webhook = Ok stray_extracted /\
  healthy sample_world /\
  exists response,
    fst (webhookRoute sample_render (Some stray_webhook) sample_world) = Ok response /\
    res_status response = 400.
Proof.
  assert (Hk : Object_keys_length stray_webhook <> O) by discriminate.
  split; [reflexivity|]. split; [exact Hk|]. split; [reflexivity|].
  split; [exact sample_world_healthy|].
  destruct (X5_webhookRoute_status_code sample_render stray_webhook stray_extracted
              sample_world eq_refl Hk eq_refl sample_world_healthy) as [result [_ H]].
  eexists. rewrite H. split; reflexivity.
Defined.

Lemma X6_webhookRoute_reconciler_throw_witness :
  truthy sample_webhook = true /\
  Object_keys_length sample_webhook <> O /\
  fst (handleFastlipaWebhook sample_render sample_webhook outage_world)
  = Throw (Error "Connection terminated unexpectedly") /\
  exists response,
    fst (webhookRoute sample_render (Some sample_webhook) outage_world) = Ok response /\
    res_status response = 500.
Proof.
  assert (Hk : Object_keys_length sample_webhook <> O) by discriminate.
  split; [reflexivity|]. split; [exact Hk|]. split; [reflexivity|].
  destruct (X6_webhookRoute_reconciler_throw sample_render sample_webhook outage_world
              (Error "Connection terminated unexpectedly") eq_refl Hk eq_refl) as [H _].
  eexists. split; [exact H|reflexivity].
Defined.

Lemma X7_processPayment_success_witness :
  let outcome := processPayment sample_render sample_paymentData two_payment_world in
  gateway two_payment_world (paymentPayload sample_paymentData) = Ok sample_gateway_response /\
  sample_gateway_response <> VNull /\
  pr_paymentId_of (fst outcome) = Some (VStr "pay_test123") /\
  map status (payments (snd outcome)) = ["processing"; "pending"].
Proof.
  intros outcome.
  assert (N : sample_gateway_response <> VNull) by discriminate.
  split; [reflexivity|]. split; [exact N|].
  destruct (X7_processPayment_success sample_render sample_paymentData
              sample_gateway_response two_payment_world eq_refl N eq_refl) as [H _].
  fold outcome in H. rewrite H. split; reflexivity.
Defined.

Lemma X8_processed_payment_not_found_by_transaction_id_witness :
  let processed := snd (processPayment sample_render sample_paymentData two_payment_world) in
  (forall p, In p (payments two_payment_world) -> external_payment_id p = None) /\
  healthy processed /\
  extract tranid_only_webhook = Ok tranid_only_extracted /\
  pr_paymentId_of (fst (processPayment sample_render sample_paymentData two_payment_world))
  = Some (VStr "pay_test123") /\
  fst (handleFastlipaWebhook sample_render tranid_only_webhook processed)
  = Ok (noMatchResult tranid_only_extracted).
Proof.
  intros processed.
  assert (Hn : forall p, In p (payments two_payment_world) -> external_payment_id p = None)
    by (intros p [<-|[<-|[]]]; reflexivity).
  assert (Hh : healthy processed) by (intros stmt; reflexivity).
  split; [exact Hn|]. split; [exact Hh|]. split; [reflexivity|].
  destruct (X8_processed_payment_not_found_by_transaction_id sample_render
              sample_paymentData sample_gateway_response (VStr "pay_test123")
              tranid_only_webhook tranid_only_extracted two_payment_world processed
              Hn eq_refl eq_refl eq_refl eq_refl eq_refl eq_refl Hh eq_refl eq_refl eq_refl)
    as [H1 [H2 _]].
  split; [exact H1|exact H2].
Defined.

Lemma X10_callback_success_without_update_witness :
  stray_callback <> VNull /\
  optionalToLowerCase (member "status" stray_callback) = Ok (Some "failed") /\
  (forall p, In p (payments sample_world) -> payment_link_id p <> "no-such-link") /\
  handlePaymentCallback sample_render accepting (Some stray_callback) sample_world
  = (Ok (VObj [("success", VBool true)]), sample_world).
Proof.
  assert (N : stray_callback <> VNull) by discriminate.
  assert (Hno : forall p, In p (payments sample_world) -> payment_link_id p <> "no-such-link")
    by (intros p [<-|[]]; discriminate).
  split; [exact N|]. split; [reflexivity|]. split; [exact Hno|].
  exact (X10_callback_success_without_update sample_render accepting stray_callback
           (Some "failed") sample_world N eq_refl (conj eq_refl Hno)).
Defined.

Lemma X11_callback_update_witness :
  let outcome := handlePaymentCallback sample_render accepting (Some sample_callback)
                   two_payment_world in
  sample_callback <> VNull /\
  optionalToLowerCase (member "status" sample_callback) = Ok (Some "cancelled") /\
  fst outcome = Ok (VObj [("success", VBool true)]) /\
  map status (payments (snd outcome)) = ["processing"; "cancelled"].
Proof.
  intros outcome.
  assert (N : sample_callback <> VNull) by discriminate.
  assert (Nv : VStr "9c1d7a52-0b3e-4f86-a2c4-6e8f1b2d3a47" <> VNull) by discriminate.
  split; [exact N|]. split; [reflexivity|].
  destruct (X11_callback_update sample_render accepting sample_callback
              (VStr "9c1d7a52-0b3e-4f86-a2c4-6e8f1b2d3a47") (Some "cancelled")
              two_payment_world N eq_refl eq_refl Nv eq_refl) as [H _].
  split; [exact H|reflexivity].
Defined.

Lemma X12_callback_non_string_status_witness :
  numeric_status_callback <> VNull /\
  member "status" numeric_status_callback = Some (VNum (Qmake 0 1)) /\
  exists response,
    callbackRoute sample_render accepting (Some numeric_status_callback) two_payment_world
    = (Ok response, two_payment_world) /\
    res_status response = 500.
Proof.
  assert (N : numeric_status_callback <> VNull) by discriminate.
  assert (Nn : VNum (Qmake 0 1) <> VNull) by discriminate.
  assert (Ns : forall s, VNum (Qmake 0 1) <> VStr s) by (intros s; discriminate).
  split; [exact N|]. split; [reflexivity|].
  destruct (X12_callback_non_string_status sample_render accepting numeric_status_callback
              (VNum (Qmake 0 1)) two_payment_world N eq_refl Nn Ns) as [error [_ H]].
  eexists. split; [exact H|reflexivity].
Defined.

Lemma X15_lookup_after_update_witness :
  let link := payment_link_id sample_payment in
  In sample_payment (payments sample_world) /\
  exists payment,
    fst (getPaymentByLinkId accepting link
           (snd (updatePaymentStatus sample_render link "failed" VNull sample_world)))
    = Ok (Some payment) /\
    status payment = "failed".
Proof.
  intros link.
  assert (Hin : In sample_payment (payments sample_world)) by (left; reflexivity).
  split; [exact Hin|].
  destruct (X15_lookup_after_update sample_render accepting link "failed" VNull
              sample_payment sample_world Hin eq_refl eq_refl eq_refl)
    as [payment [H1 [_ [H3 _]]]].
  exists payment. split; [exact H1|exact H3].
Defined.

Lemma X16_stats_buckets_witness :
  fst (getPaymentStats accepting two_payment_world)
  = Ok (payment_stats (payments two_payment_world)) /\
  total_payments (payment_stats (payments two_payment_world)) = 2 /\
  completed_payments (payment_stats (payments two_payment_world))
  + pending_payments (payment_stats (payments two_payment_world))
  + failed_payments (payment_stats (payments two_payment_world))
  <= total_payments (payment_stats (payments two_payment_world)).
Proof.
  split; [reflexivity|].
  destruct (X16_stats_buckets accepting two_payment_world
              (payment_stats (payments two_payment_world)) eq_refl)
    as [_ [Ht [Hle _]]].
  split; [exact Ht|exact Hle].
Defined.

Lemma X17_stats_after_completion_witness :
  NoDup (map payment_link_id (payments sample_world)) /\
  exists after,
    fst (getPaymentStats accepting
           (snd (handleFastlipaWebhook sample_render sample_webhook sample_world)))
    = Ok after /\
    completed_payments after = 1.
Proof.
  assert (Hnd : NoDup (map payment_link_id (payments sample_world)))
    by (repeat constructor; intros []).
  assert (Hs : status sample_payment <> "completed") by discriminate.
  split; [exact Hnd|].
  destruct (X17_stats_after_completion sample_render accepting sample_webhook
              sample_extracted sample_payment sample_world
              (payment_stats (payments sample_world))
              eq_refl sample_world_healthy eq_refl eq_refl Hs Hnd eq_refl)
    as [after [H1 [_ [H3 _]]]].
  exists after. split; [exact H1|exact H3].
Defined.

Lemma X18_validated_phone_is_sent_unchanged_witness :
  phoneNumberPattern (body_phoneNumber sample_processBody) = true /\
  exists requests,
    sent (snd (processRoute sample_render accepting sample_processBody two_payment_world))
    = requests /\
    forall request, In request requests -> req_number request = "0712345678".
Proof.
  split; [reflexivity|].
  destruct (X18_validated_phone_is_sent_unchanged sample_render accepting
              sample_processBody two_payment_world eq_refl) as [requests [H1 [_ H3]]].
  exists requests. split; [exact H1|exact H3].
Defined.

Lemma X19_processRoute_unknown_link_witness :
  validatePaymentProcessing sample_uuid String.length sample_details unknown_link_body = Next /\
  (forall p, In p (payments two_payment_world) ->
             payment_link_id p <> stringField "paymentLinkId" unknown_link_body) /\
  (exists response,
      processEndpoint sample_render accepting sample_uuid String.length sample_details
        unknown_link_body two_payment_world
      = (Ok response, two_payment_world) /\
      res_status response = 404) /\
  (exists response,
      processEndpoint sample_render accepting sample_uuid String.length sample_details
        invalid_link_body two_payment_world
      = (Ok response, two_payment_world) /\
      res_status response = 400).
Proof.
  assert (Hno : forall p, In p (payments two_payment_world) ->
                          payment_link_id p <> stringField "paymentLinkId" unknown_link_body)
    by (intros p [<-|[<-|[]]]; discriminate).
  split; [reflexivity|]. split; [exact Hno|]. split.
  - eexists. split.
    + exact (proj2 (X19_processRoute_unknown_link sample_render accepting sample_uuid
                      String.length sample_details unknown_link_body two_payment_world)
               eq_refl eq_refl Hno).
    + reflexivity.
  - eexists.
    destruct (proj1 (X19_processRoute_unknown_link sample_render accepting sample_uuid
                       String.length sample_details invalid_link_body two_payment_world)
                _ eq_refl) as [H1 [_ H3]].
    split; [exact H3|exact H1].
Defined.

Lemma X20_padded_key_locks_out_witness :
  trim (API_KEY (Some "secret ")) <> API_KEY (Some "secret ") /\
  authenticateApiKey (API_KEY (Some "secret ")) (Some "secret ") <> Next /\
  authenticateApiKey (API_KEY (Some "secret ")) (Some "secret") <> Next.
Proof.
  assert (H : trim (API_KEY (Some "secret ")) <> API_KEY (Some "secret ")) by discriminate.
  split; [exact H|].
  split; apply (X20_padded_key_locks_out (Some "secret ")); exact H.
Defined.

Lemma X21_trimmed_and_exact_comparison_witness :
  trim " secret" = "secret" /\
  authenticateApiKey "secret" (Some " secret") = Next /\
  optionalAuth "secret" (Some " secret") = Respond invalidApiKey.
Proof.
  split; [reflexivity|].
  apply (proj1 (X21_trimmed_and_exact_comparison "secret" " secret"));
    [reflexivity|discriminate].
Defined.

Lemma X22_match_is_sound_witness :
  healthy sample_world /\
  fst (findPayment sample_render sample_extracted sample_world) = Ok (Some sample_payment) /\
  In sample_payment (payments sample_world).
Proof.
  split; [exact sample_world_healthy|]. split; [reflexivity|].
  exact (proj1 (X22_match_is_sound sample_render sample_extracted sample_payment
                  sample_world sample_world_healthy eq_refl)).
Defined.

Lemma X23_redelivery_keeps_payments_witness :
  let first := snd (handleFastlipaWebhook sample_render sample_webhook two_payment_world) in
  let again := set_payments (rev (payments first)) first in
  extract sample_webhook = Ok sample_extracted /\
  healthy two_payment_world /\
  lookup_determined sample_render two_payment_world sample_extracted /\
  map status (payments again) = ["pending"; "completed"] /\
  payments (snd (handleFastlipaWebhook sample_render sample_webhook again)) = payments again.
Proof.
  intros first again.
  assert (D : lookup_determined sample_render two_payment_world sample_extracted).
  { split.
    - intros tid p q _ [<-|[<-|[]]] [<-|[<-|[]]] Hp Hq;
        try reflexivity; discriminate.
    - intros ph p q _ [<-|[<-|[]]] [<-|[<-|[]]] Hp Hq Hc;
        try reflexivity; discriminate. }
  split; [reflexivity|]. split; [exact two_payment_world_healthy|].
  split; [exact D|]. split; [reflexivity|].
  apply (X23_redelivery_keeps_payments sample_render sample_webhook sample_extracted
           two_payment_world eq_refl two_payment_world_healthy D again).
  - apply Permutation_rev.
  - reflexivity.
  - intros stmt. reflexivity.
Defined.
